(** * AniVerse chat: session and message handling of the two deployments

    Shallow embedding of the REST handlers of
    - [server/routes.ts] (the primary deployment, on the storage interface
      imported from [./storage]), and
    - the serverless function (the in-memory deployment, one process-local
      [Map] from session id to message array),
    with the validation schema of [shared/schema.ts].

    A handler is a function from the store (and the request) to an
    [Outcome]: the HTTP response, the store afterwards and the list of
    requests sent to the upstream completion API.  What the handlers draw
    from their environment (the upstream's answer, [crypto.randomUUID],
    [new Date]) is given to them as an oracle, so that every statement
    holds for all such values. *)

From Stdlib Require Import ZArith Lia.
From stdpp Require Import base gmap strings list pretty.

Local Open Scope string_scope.
Local Open Scope Z_scope.

(** ** Values shared by both deployments *)

(** A JSON value as found in a field of [req.body].  Objects and arrays are
    not inspected by the handlers: they only matter for being truthy. *)
Inductive jsval : Type :=
| JUndefined
| JNull
| JBool (b : bool)
| JNum (n : Z)
| JStr (s : string)
| JObject.

Definition is_empty (s : string) : bool :=
  match s with EmptyString => true | String _ _ => false end.

(** JavaScript truthiness: [!v] is [negb (truthy v)]. *)
Definition truthy (v : jsval) : bool :=
  match v with
  | JUndefined | JNull => false
  | JBool b => b
  | JNum n => negb (n =? 0)
  | JStr s => negb (is_empty s)
  | JObject => true
  end.

(** Truthiness of a [string | undefined]. *)
Definition truthy_str (o : option string) : bool :=
  match o with
  | None => false
  | Some s => negb (is_empty s)
  end.

(** [a || b] on values. *)
Definition js_or (a b : jsval) : jsval := if truthy a then a else b.

(** [haystack.includes(needle)]. *)
Definition includes (needle haystack : string) : bool :=
  match String.index 0 needle haystack with
  | Some _ => true
  | None => false
  end.

(** [l.slice(-n)]: the last [n] elements, all of them when there are fewer. *)
Definition slice_last {A : Type} (n : nat) (l : list A) : list A :=
  drop (length l - n) l.

(** [s.length]: the number of UTF-16 code units of a JavaScript string.
    A string is held here as its UTF-8 bytes: an ASCII byte and a
    sequence of two or three bytes are one unit, a sequence of four bytes
    (a code point above U+FFFF) is two.  On bytes that are not well-formed
    UTF-8 every offending byte counts as one unit. *)
Definition is_continuation (a : Ascii.ascii) : bool :=
  let n := Ascii.nat_of_ascii a in ((128 <=? n) && (n <? 192))%nat.

Definition sequence_length (a : Ascii.ascii) : nat :=
  let n := Ascii.nat_of_ascii a in
  if (n <? 128)%nat then 1%nat
  else if (n <? 192)%nat then 0%nat
  else if (n <? 224)%nat then 2%nat
  else if (n <? 240)%nat then 3%nat
  else if (n <? 248)%nat then 4%nat
  else 0%nat.

Fixpoint js_length (s : string) : nat :=
  match s with
  | EmptyString => 0%nat
  | String a s1 =>
      match sequence_length a, s1 with
      | 2%nat, String b s2 =>
          if is_continuation b then Datatypes.S (js_length s2)
          else Datatypes.S (js_length s1)
      | 3%nat, String b (String c s3) =>
          if is_continuation b && is_continuation c
          then Datatypes.S (js_length s3)
          else Datatypes.S (js_length s1)
      | 4%nat, String b (String c (String d s4)) =>
          if is_continuation b && is_continuation c && is_continuation d
          then Datatypes.S (Datatypes.S (js_length s4))
          else Datatypes.S (js_length s1)
      | _, _ => Datatypes.S (js_length s1)
      end
  end.

(** A thrown JavaScript error, as far as the handlers look at it. *)
Record js_error : Type := JsError {
  err_name : string;
  err_message : option string
}.

(** What the body of a 2xx answer yields when it is read with [.json()] and
    the completion text is selected.  The content is a string, as the
    interface [PerplexityResponse] of [routes.ts] declares it, or missing;
    an answer whose content is a JSON value of another type is not
    covered. *)
Inductive payload : Type :=
| PayloadInvalid (e : js_error)      (* reading the body throws [e] *)
| PayloadNoChoices                   (* an object without [choices] *)
| PayloadContent (c : option string) (* [choices[0]?.message?.content] *).

(** The result of [await fetch(...)]: the promise rejects (the abort of the
    timeout controller rejects it with an error named [AbortError]) or an
    HTTP answer arrives.  The text of a failed answer is only logged. *)
Inductive fetch_result : Type :=
| FetchRejected (e : js_error)
| FetchResponse (status : Z) (p : payload).

(** [response.ok] *)
Definition response_ok (status : Z) : bool :=
  (200 <=? status) && (status <=? 299).

Definition nl : string := String (Ascii.ascii_of_nat 10) EmptyString.

Definition system_prompt : string :=
  "You are AniVerse AI, an intelligent assistant specialized in anime and manga. You have deep knowledge about anime series, manga titles, characters, storylines, recommendations, and the broader anime/manga culture. Provide detailed, accurate, and engaging responses about anime and manga topics. Be enthusiastic and knowledgeable while maintaining a friendly tone. Always respond to greetings like 'hi', 'hello', 'hey' in a friendly manner.".

Definition completions_url : string := "https://api.perplexity.ai/chat/completions".

(** An HTTP response: [res.status(n).json(b)]; [res.json(b)] has status 200. *)
Record Response (B : Type) : Type := mkResponse {
  status : Z;
  body : B
}.
Arguments mkResponse {B} _ _.
Arguments status {B} _.
Arguments body {B} _.

(** What a handler leaves behind. *)
Record Outcome (B St Rq : Type) : Type := mkOutcome {
  response : Response B;
  store : St;
  calls : list Rq
}.
Arguments mkOutcome {B St Rq} _ _ _.
Arguments response {B St Rq} _.
Arguments store {B St Rq} _.
Arguments calls {B St Rq} _.

(** ** The in-memory deployment (serverless function) *)

Module Netlify.

Record Session : Type := mkSession {
  ses_id : string;
  ses_title : jsval;
  ses_userId : string;
  ses_createdAt : string;
  ses_updatedAt : string
}.

Record Message : Type := mkMessage {
  msg_id : string;
  msg_sessionId : string;
  msg_role : string;
  msg_content : jsval;
  msg_timestamp : string
}.

Record PerplexityMessage : Type := mkPM {
  pm_role : string;
  pm_content : jsval
}.

(** The call to the completion API.  The sampling parameters of the body
    are constants of the source and are left out. *)
Record FetchRequest : Type := mkRequest {
  rq_url : string;
  rq_authorization : string;
  rq_model : string;
  rq_messages : list PerplexityMessage;
  rq_stream : bool;
  rq_timeout : Z  (* milliseconds until [controller.abort()] *)
}.

Inductive Body : Type :=
| ErrorBody (error : string)
| SessionBody (s : Session)
| SessionsBody (l : list Session)
| MessagesBody (l : list Message)
| ChatBody (message : string) (sessionId : string)
| InfoBody (message : string).

(** The oracle of one request: the [n]-th [crypto.randomUUID()], the
    [n]-th [new Date().toISOString()], and the upstream's answer. *)
Record Env : Type := mkEnv {
  randomUUID : nat -> string;
  now : nat -> string;
  fetch : FetchRequest -> fetch_result
}.

(** [const conversations = new Map()] *)
Abbreviation Conversations := (gmap string (list Message)).

Abbreviation Result := (Outcome Body Conversations FetchRequest).

Definition json (b : Body) (c : Conversations) : Result :=
  mkOutcome (mkResponse 200 b) c [].

(** [process.env.PERPLEXITY_API_KEY || ""] *)
Definition PERPLEXITY_API_KEY (env_key : option string) : string :=
  if truthy_str env_key then default EmptyString env_key else EmptyString.

Definition greeting : string :=
  "Hello! I'm AniVerse AI, your anime and manga companion. What would you like to discuss today?".

Definition not_configured_text : string :=
  "Sorry, the AI service is not configured. Please set up your PERPLEXITY_API_KEY in Netlify environment variables.".
Definition empty_response_text : string :=
  "Sorry, I received an empty response. Please try again.".
Definition auth_text : string :=
  "Sorry, there's an authentication issue with the AI service. Please check your API key configuration.".
Definition rate_limit_text : string :=
  "Sorry, I'm receiving too many requests right now. Please try again in a moment.".
Definition unavailable_text : string :=
  "Sorry, I'm having trouble accessing my knowledge base right now. Please try again in a moment.".
Definition timeout_text : string :=
  "Sorry, that request took too long. Please try asking again.".
Definition connection_text : string :=
  "Sorry, I'm having trouble connecting to the AI service. Please check your internet connection.".
Definition unexpected_text : string :=
  "Sorry, an unexpected error occurred. Please try again.".

(** POST /api/chat/sessions *)
Definition createSession (e : Env) (conversations : Conversations)
    (title : jsval) : Result :=
  let id := randomUUID e 0 in
  let session :=
    {| ses_id := id;
       ses_title := js_or title (JStr "New Chat");
       ses_userId := "default-user";
       ses_createdAt := now e 0;
       ses_updatedAt := now e 1 |} in
  json (SessionBody session) (<[id := []]> conversations).

(** GET /api/chat/sessions *)
Definition listSessions (conversations : Conversations) : Result :=
  json (SessionsBody []) conversations.

Definition greetingMessage (e : Env) (sessionId : string) : Message :=
  {| msg_id := randomUUID e 0;
     msg_sessionId := sessionId;
     msg_role := "assistant";
     msg_content := JStr greeting;
     msg_timestamp := now e 0 |}.

(** GET /api/chat/sessions/:sessionId/messages *)
Definition getMessages (e : Env) (conversations : Conversations)
    (sessionId : string) : Result :=
  match conversations !! sessionId with
  | Some (m :: l) => json (MessagesBody (m :: l)) conversations
  | Some [] | None =>
      let sessionMessages := [greetingMessage e sessionId] in
      json (MessagesBody sessionMessages)
           (<[sessionId := sessionMessages]> conversations)
  end.

Definition toPerplexity (msg : Message) : PerplexityMessage :=
  {| pm_role := msg_role msg; pm_content := msg_content msg |}.

(** The array [perplexityMessages] built from [sessionMessages]. *)
Definition perplexityMessages (sessionMessages : list Message)
    : list PerplexityMessage :=
  let recentMessages := slice_last 8 sessionMessages in
  {| pm_role := "system"; pm_content := JStr system_prompt |}
    :: map toPerplexity recentMessages.

Definition completionRequest (key : string) (sessionMessages : list Message)
    : FetchRequest :=
  {| rq_url := completions_url;
     rq_authorization := "Bearer " +:+ key;
     rq_model := "sonar";
     rq_messages := perplexityMessages sessionMessages;
     rq_stream := false;
     rq_timeout := 25000 |}.

(** The [catch (apiError)] branch. *)
Definition apiErrorText (apiError : js_error) : string :=
  if String.eqb (err_name apiError) "AbortError" then timeout_text
  else if from_option (includes "fetch") false (err_message apiError)
       then connection_text
       else unexpected_text.

(** The [else] branch of [perplexityResponse.ok]. *)
Definition statusText (status : Z) : string :=
  if status =? 401 then auth_text
  else if status =? 429 then rate_limit_text
  else unavailable_text.

(** The text that ends up in [aiResponse] after the [try] block. *)
Definition replyText (r : fetch_result) : string :=
  match r with
  | FetchRejected apiError => apiErrorText apiError
  | FetchResponse status p =>
      if response_ok status then
        match p with
        | PayloadInvalid apiError => apiErrorText apiError
        | PayloadNoChoices => empty_response_text
        | PayloadContent c =>
            if truthy_str c then default EmptyString c
            else empty_response_text
        end
      else statusText status
  end.

(** [!PERPLEXITY_API_KEY || PERPLEXITY_API_KEY.length < 10] *)
Definition unconfigured (env_key : option string) : bool :=
  let key := PERPLEXITY_API_KEY env_key in
  negb (truthy_str (Some key)) || (js_length key <? 10)%nat.

Definition userMessage (e : Env) (sessionId : string) (content : jsval)
    : Message :=
  {| msg_id := randomUUID e 0;
     msg_sessionId := sessionId;
     msg_role := "user";
     msg_content := content;
     msg_timestamp := now e 0 |}.

Definition aiMessage (e : Env) (sessionId aiResponse : string) : Message :=
  {| msg_id := randomUUID e 1;
     msg_sessionId := sessionId;
     msg_role := "assistant";
     msg_content := JStr aiResponse;
     msg_timestamp := now e 1 |}.

(** [sessionMessages] once the user message is pushed. *)
Definition pushed (e : Env) (conversations : Conversations)
    (sessionId : string) (content : jsval) : list Message :=
  let sessionMessages := default [] (conversations !! sessionId) in
  (sessionMessages ++ [userMessage e sessionId content])%list.

(** The request that goes upstream when the key is configured. *)
Definition request_sent (env_key : option string) (e : Env)
    (conversations : Conversations) (sessionId : string) (content : jsval)
    : FetchRequest :=
  completionRequest (PERPLEXITY_API_KEY env_key)
                    (pushed e conversations sessionId content).

(** POST /api/chat/sessions/:sessionId/messages.

    [sessionMessages] is the array held by the map when the session is
    known (the pushes then write through to the map) and a new array
    otherwise; the closing [conversations.set] stores it in both cases,
    so the store afterwards has the array with both messages pushed. *)
Definition postMessage (env_key : option string) (e : Env)
    (conversations : Conversations) (sessionId : string) (content : jsval)
    : Result :=
  if negb (truthy content) then
    mkOutcome (mkResponse 400 (ErrorBody "Message content is required"))
              conversations []
  else
    let sessionMessages := pushed e conversations sessionId content in
    let '(aiResponse, sent) :=
      if unconfigured env_key then (not_configured_text, [])
      else
        let rq := request_sent env_key e conversations sessionId content in
        (replyText (fetch e rq), [rq]) in
    let sessionMessages :=
      (sessionMessages ++ [aiMessage e sessionId aiResponse])%list in
    mkOutcome (mkResponse 200 (ChatBody aiResponse sessionId))
              (<[sessionId := sessionMessages]> conversations)
              sent.

(** DELETE /api/chat/sessions/:sessionId *)
Definition deleteSession (conversations : Conversations)
    (sessionId : string) : Result :=
  json (InfoBody "Session deleted successfully")
       (delete sessionId conversations).

(** The requests of the REST interface, and one step of the server. *)
Inductive Request : Type :=
| PostSessions (title : jsval)
| GetSessions
| GetMessages (sessionId : string)
| PostMessages (sessionId : string) (content : jsval)
| DeleteSessions (sessionId : string).

Definition handle (env_key : option string) (e : Env)
    (conversations : Conversations) (rq : Request) : Result :=
  match rq with
  | PostSessions title => createSession e conversations title
  | GetSessions => listSessions conversations
  | GetMessages sessionId => getMessages e conversations sessionId
  | PostMessages sessionId content =>
      postMessage env_key e conversations sessionId content
  | DeleteSessions sessionId => deleteSession conversations sessionId
  end.

(** The stores a process can be in: it starts with the empty map and
    serves requests one after the other. *)
Inductive reachable (env_key : option string) : Conversations -> Prop :=
| reachable_start : reachable env_key ∅
| reachable_step e c rq :
    reachable env_key c ->
    reachable env_key (store (handle env_key e c rq)).

(** The last message stored for [sessionId] is an assistant turn with
    content [text]. *)
Definition stored_last (conversations : Conversations) (sessionId text : string)
    : Prop :=
  exists (l : list Message) (m : Message),
    conversations !! sessionId = Some l /\
    last l = Some m /\
    msg_role m = "assistant" /\
    msg_content m = JStr text.

End Netlify.

(** ** The primary deployment ([server/routes.ts]) *)

Module Primary.

(** Rows of the tables [chat_sessions] and [messages] of
    [shared/schema.ts]. *)
Record ChatSession : Type := mkChatSession {
  ses_id : string;
  ses_userId : string;
  ses_title : option string;
  ses_createdAt : Z;
  ses_updatedAt : Z
}.

Record Message : Type := mkMessage {
  msg_id : string;
  msg_sessionId : string;
  msg_role : string;
  msg_content : string;
  msg_timestamp : Z
}.

(** [InsertMessage]: the columns picked by [insertMessageSchema]. *)
Record InsertMessage : Type := mkInsertMessage {
  ins_sessionId : string;
  ins_role : string;
  ins_content : string
}.

(** The part of the interface of [storage] that the message and session
    routes call.  The implementation is a parameter of the routes; reads
    return a value, writes return the store afterwards.  The operations
    are total: a storage call that throws would land in the [catch] of the
    route (status 500) and is not modelled, so the only way into that
    [catch] here is the error of [chatMessageSchema.parse]. *)
Class IStorage (St : Type) : Type := {
  getChatSession : St -> string -> option ChatSession;
  getMessagesBySessionId : St -> string -> list Message;
  createMessage : St -> InsertMessage -> Message * St;
  deleteChatSession : St -> string -> St
}.

Record PerplexityMessage : Type := mkPM {
  pm_role : string;
  pm_content : string
}.

(** The call to the completion API.  The sampling parameters of the body
    are constants of the source and are left out. *)
Record FetchRequest : Type := mkRequest {
  rq_url : string;
  rq_authorization : string;
  rq_model : string;
  rq_messages : list PerplexityMessage;
  rq_stream : bool;
  rq_timeout : Z  (* milliseconds until [controller.abort()] *)
}.

Inductive Body : Type :=
| ErrorBody (error : string)
| MessagesBody (l : list Message)
| ChatBody (message : string) (sessionId : string)
| InfoBody (message : string).

Abbreviation Result St := (Outcome Body St FetchRequest).

(** [chatMessageSchema.parse(req.body)], on the [content] field of the
    body: a string of length at least 1, or the parse throws. *)
Definition chatMessageSchema_parse (content : jsval) : option string :=
  match content with
  | JStr s => if (1 <=? String.length s)%nat then Some s else None
  | _ => None
  end.

Definition not_configured_text : string :=
  "Sorry, the AI service is not configured. Please set up the PERPLEXITY_API_KEY environment variable.".
Definition unavailable_text : string :=
  "Sorry, I'm having trouble accessing my knowledge base right now. Please try again in a moment.".
Definition auth_text : string :=
  String.concat nl
    [ "🔑 API Authentication Error"; EmptyString;
      "Your Perplexity API key has no credits remaining. To fix this:";
      EmptyString;
      "1. Go to https://sonar.perplexity.ai/";
      "2. Check your credit balance";
      "3. Purchase more credits or add a payment method";
      "4. Pro users get $5 free credits monthly"; EmptyString;
      "Note: API keys only work with a non-zero balance." ].
Definition rate_limit_text : string :=
  "Sorry, I'm receiving too many requests right now. Please try again in a moment.".
Definition bad_request_text : string :=
  "Sorry, there was an issue with the request format. The API model or parameters may have changed.".
Definition invalid_response_text : string :=
  "Sorry, I received an invalid response. Please try again.".
Definition connection_text : string :=
  "Sorry, I'm having trouble connecting right now. Please try again.".
Definition timeout_text : string :=
  "The request took too long. Please try again.".

Definition toPerplexity (msg : Message) : PerplexityMessage :=
  {| pm_role := msg_role msg; pm_content := msg_content msg |}.

(** The array [perplexityMessages] built from the loaded history. *)
Definition perplexityMessages (messages : list Message)
    : list PerplexityMessage :=
  let recentMessages := slice_last 10 messages in
  {| pm_role := "system"; pm_content := system_prompt |}
    :: map toPerplexity recentMessages.

Definition completionRequest (key : string) (messages : list Message)
    : FetchRequest :=
  {| rq_url := completions_url;
     rq_authorization := "Bearer " +:+ key;
     rq_model := "sonar";
     rq_messages := perplexityMessages messages;
     rq_stream := false;
     rq_timeout := 30000 |}.

(** The [if (!perplexityResponse.ok)] branch. *)
Definition statusText (status : Z) : string :=
  if status =? 401 then auth_text
  else if status =? 429 then rate_limit_text
  else if status =? 400 then bad_request_text
  else unavailable_text.

(** The [catch (fetchError)] branch. *)
Definition fetchErrorText (fetchError : js_error) : string :=
  if String.eqb (err_name fetchError) "AbortError" then timeout_text
  else connection_text.

(** What the [try] block makes of the upstream's answer: the completion
    text [aiMessage], or an [errorContent] to put in its place. *)
Inductive Reply : Type :=
| Completion (aiMessage : string)
| Substitute (errorContent : string).

Definition reply (r : fetch_result) : Reply :=
  match r with
  | FetchRejected fetchError => Substitute (fetchErrorText fetchError)
  | FetchResponse status p =>
      if negb (response_ok status) then Substitute (statusText status)
      else
        match p with
        | PayloadInvalid fetchError => Substitute (fetchErrorText fetchError)
        | PayloadNoChoices =>
            (* [perplexityData.choices[0]] throws a TypeError *)
            Substitute (fetchErrorText (JsError "TypeError" None))
        | PayloadContent c =>
            if negb (truthy_str c) then Substitute invalid_response_text
            else Completion (default EmptyString c)
        end
  end.

(** The text of the assistant's turn in either case. *)
Definition replyText (r : fetch_result) : string :=
  match reply r with
  | Completion aiMessage => aiMessage
  | Substitute errorContent => errorContent
  end.

Section Routes.
Context {St : Type} `{IStorage St}.

Definition assistant (sessionId content : string) : InsertMessage :=
  {| ins_sessionId := sessionId;
     ins_role := "assistant";
     ins_content := content |}.

(** GET /api/chat/sessions/:sessionId/messages *)
Definition getMessages (st : St) (sessionId : string) : Result St :=
  match getChatSession st sessionId with
  | None => mkOutcome (mkResponse 404 (ErrorBody "Session not found")) st []
  | Some _ =>
      let messages := getMessagesBySessionId st sessionId in
      mkOutcome (mkResponse 200 (MessagesBody messages)) st []
  end.

(** POST /api/chat/sessions/:sessionId/messages.  [env_key] is
    [process.env.PERPLEXITY_API_KEY]. *)
Definition postMessage (env_key : option string)
    (fetch : FetchRequest -> fetch_result)
    (st : St) (sessionId : string) (content : jsval) : Result St :=
  match chatMessageSchema_parse content with
  | None =>
      (* the ZodError is caught by the outer [catch] *)
      mkOutcome (mkResponse 500 (ErrorBody "Failed to process message"))
                st []
  | Some content =>
      match getChatSession st sessionId with
      | None =>
          mkOutcome (mkResponse 404 (ErrorBody "Session not found")) st []
      | Some _ =>
          let '(userMessage, st) :=
            createMessage st {| ins_sessionId := sessionId;
                                ins_role := "user";
                                ins_content := content |} in
          let messages := getMessagesBySessionId st sessionId in
          if negb (truthy_str env_key) then
            let '(errorMessage, st) :=
              createMessage st (assistant sessionId not_configured_text) in
            mkOutcome
              (mkResponse 200 (ChatBody (msg_content errorMessage) sessionId))
              st []
          else
            let rq :=
              completionRequest (default EmptyString env_key) messages in
            match reply (fetch rq) with
            | Substitute errorContent =>
                let '(errorMessage, st) :=
                  createMessage st (assistant sessionId errorContent) in
                mkOutcome
                  (mkResponse 200
                     (ChatBody (msg_content errorMessage) sessionId))
                  st [rq]
            | Completion aiMessage =>
                let '(assistantMessage, st) :=
                  createMessage st (assistant sessionId aiMessage) in
                mkOutcome (mkResponse 200 (ChatBody aiMessage sessionId))
                          st [rq]
            end
      end
  end.

(** DELETE /api/chat/sessions/:sessionId *)
Definition deleteSession (st : St) (sessionId : string) : Result St :=
  match getChatSession st sessionId with
  | None => mkOutcome (mkResponse 404 (ErrorBody "Session not found")) st []
  | Some _ =>
      mkOutcome (mkResponse 200 (InfoBody "Session deleted successfully"))
                (deleteChatSession st sessionId) []
  end.

(** The stages of [postMessage], named for the statements below: the row
    inserted for the user, the store once it is saved, the history loaded
    from it and the request built from that history. *)
Definition user (sessionId content : string) : InsertMessage :=
  {| ins_sessionId := sessionId; ins_role := "user"; ins_content := content |}.

Definition saved (st : St) (sessionId content : string) : St :=
  (createMessage st (user sessionId content)).2.

Definition loaded (st : St) (sessionId content : string) : list Message :=
  getMessagesBySessionId (saved st sessionId content) sessionId.

Definition request_sent (env_key : option string) (st : St)
    (sessionId content : string) : FetchRequest :=
  completionRequest (default EmptyString env_key) (loaded st sessionId content).

(** The outcome when [content] is stored as the assistant's turn and
    [message] is sent back. *)
Definition answered (st : St) (sessionId content message : string)
    (sent : list FetchRequest) : Result St :=
  mkOutcome (mkResponse 200 (ChatBody message sessionId))
            (createMessage st (assistant sessionId content)).2 sent.

(** The last message the storage returns for [sessionId] is an assistant
    turn with content [text]. *)
Definition stored_last (st : St) (sessionId text : string) : Prop :=
  exists m : Message,
    last (getMessagesBySessionId st sessionId) = Some m /\
    msg_role m = "assistant" /\
    msg_content m = text.

End Routes.

(** Modelled from the spec: the implementation of the module [./storage]
    that [routes.ts] imports is missing.  These are the properties that
    section 4.1 and the data model of the spec give its operations:
    [createMessage] returns the row it stores, with the fields it was
    given, at the end of the chronological history of that session and
    of no other; it leaves the sessions alone; [deleteChatSession]
    removes the session and all of its messages and nothing else. *)
Class StorageLaws (St : Type) `{IStorage St} : Prop := {
  createMessage_row (st : St) (ins : InsertMessage) :
    msg_sessionId (createMessage st ins).1 = ins_sessionId ins /\
    msg_role (createMessage st ins).1 = ins_role ins /\
    msg_content (createMessage st ins).1 = ins_content ins;
  createMessage_history (st : St) (ins : InsertMessage) (sid : string) :
    getMessagesBySessionId (createMessage st ins).2 sid =
    if decide (sid = ins_sessionId ins)
    then (getMessagesBySessionId st sid ++ [(createMessage st ins).1])%list
    else getMessagesBySessionId st sid;
  createMessage_sessions (st : St) (ins : InsertMessage) (sid : string) :
    getChatSession (createMessage st ins).2 sid = getChatSession st sid;
  deleteChatSession_session (st : St) (sid sid' : string) :
    getChatSession (deleteChatSession st sid) sid' =
    if decide (sid' = sid) then None else getChatSession st sid';
  deleteChatSession_messages (st : St) (sid sid' : string) :
    getMessagesBySessionId (deleteChatSession st sid) sid' =
    if decide (sid' = sid) then [] else getMessagesBySessionId st sid'
}.

(** Modelled from the spec: the missing implementation of [./storage], as
    a store with the two tables of [shared/schema.ts] behind the interface.  [messages] is kept in
    insertion order, which is the order of the [timestamp] column as the
    clock never goes back; [uuid_seq] stands for [gen_random_uuid()],
    which never returns the same identifier twice. *)
Record Db : Type := mkDb {
  chat_sessions : gmap string ChatSession;
  messages : list Message;
  uuid_seq : nat;
  clock : Z
}.

(** Modelled from the spec: the identifier the store gives its [n]-th row. *)
Definition gen_random_uuid (n : nat) : string := "uuid-" +:+ pretty n.

(** Modelled from the spec: [createMessage(sessionId, role, content)]
    appends a row with a new identifier and the current time and returns
    it. *)
Definition db_createMessage (db : Db) (ins : InsertMessage) : Message * Db :=
  let row :=
    {| msg_id := gen_random_uuid (uuid_seq db);
       msg_sessionId := ins_sessionId ins;
       msg_role := ins_role ins;
       msg_content := ins_content ins;
       msg_timestamp := clock db |} in
  (row,
   {| chat_sessions := chat_sessions db;
      messages := (messages db ++ [row])%list;
      uuid_seq := Datatypes.S (uuid_seq db);
      clock := clock db + 1 |}).

(** Modelled from the spec: [deleteChatSession(id)] removes the session and
    all its messages. *)
Definition db_deleteChatSession (db : Db) (sid : string) : Db :=
  {| chat_sessions := delete sid (chat_sessions db);
     messages := filter (fun m => msg_sessionId m <> sid) (messages db);
     uuid_seq := uuid_seq db;
     clock := clock db |}.

(** Modelled from the spec: the storage operations on the two tables;
    [getMessagesBySessionId] returns the rows of the session in
    chronological order. *)
#[global] Instance db_storage : IStorage Db := {|
  getChatSession db sid := chat_sessions db !! sid;
  getMessagesBySessionId db sid :=
    filter (fun m => msg_sessionId m = sid) (messages db);
  createMessage := db_createMessage;
  deleteChatSession := db_deleteChatSession
|}.

End Primary.


(** ** Sample environments and stores

    Concrete inputs on which the statements below are run. *)

Module Sample.

Definition key : option string := Some "pplx-0123456789abcdef".

Definition uuid (n : nat) : string := "uuid-" +:+ pretty n.
Definition date (n : nat) : string := "2025-10-03T10:00:0" +:+ pretty n +:+ "Z".

(** An oracle whose upstream answers every call with [r]. *)
Definition env (r : fetch_result) : Netlify.Env :=
  {| Netlify.randomUUID := uuid; Netlify.now := date; Netlify.fetch _ := r |}.

Definition completion : fetch_result :=
  FetchResponse 200 (PayloadContent (Some "Try Mushishi.")).
Definition failed (status : Z) : fetch_result :=
  FetchResponse status (PayloadContent None).
Definition aborted : fetch_result :=
  FetchRejected (JsError "AbortError" (Some "This operation was aborted")).

(** A conversation of the in-memory deployment with one earlier exchange. *)
Definition earlier : list Netlify.Message :=
  [ Netlify.mkMessage "m1" "s1" "user" (JStr "hi") "2025-10-03T09:00:00Z";
    Netlify.mkMessage "m2" "s1" "assistant" (JStr "Hello!") "2025-10-03T09:00:01Z" ].

Definition conversations : gmap string (list Netlify.Message) :=
  {[ "s1" := earlier ]}.

(** A store of the primary deployment: session [s1] without messages and
    session [s2] with one earlier exchange. *)
Definition session (id : string) : Primary.ChatSession :=
  Primary.mkChatSession id "default-user" (Some "New Chat") 0 0.

Definition db : Primary.Db :=
  {| Primary.chat_sessions := {[ "s1" := session "s1"; "s2" := session "s2" ]};
     Primary.messages :=
       [ Primary.mkMessage "m1" "s2" "user" "hi" 1;
         Primary.mkMessage "m2" "s2" "assistant" "Hello!" 2 ];
     Primary.uuid_seq := 0;
     Primary.clock := 3 |}.

(** Twelve earlier messages, to see the window cut. *)
Definition long : list Netlify.Message :=
  map (fun n => Netlify.mkMessage (uuid n) "s1" "user" (JStr (pretty n)) (date n))
      (seq 0 12).

Definition long_conversations : gmap string (list Netlify.Message) :=
  {[ "s1" := long ]}.

Definition env0 : Netlify.Env := env completion.

End Sample.

(** ** Further parts of the in-memory deployment *)

Module NetlifyApp.
Import Netlify.



(** A message as the handlers leave them in the conversation of
    [sessionId]: it names that session, its role is user or assistant, and
    its content is truthy. *)
Definition message_ok (sessionId : string) (m : Message) : bool :=
  String.eqb (msg_sessionId m) sessionId
  && (String.eqb (msg_role m) "user" || String.eqb (msg_role m) "assistant")
  && truthy (msg_content m).

Definition well_formed (conversations : Conversations) : Prop :=
  map_Forall (fun sessionId l => Forall (fun m => message_ok sessionId m = true) l)
             conversations.

End NetlifyApp.

(** ** The user and session routes of the primary deployment *)

Module PrimaryAccount.
Import Primary.

(** A row of the table [users] of [shared/schema.ts]. *)
Record User : Type := mkUser {
  usr_id : string;
  usr_email : option string;
  usr_firstName : option string;
  usr_lastName : option string;
  usr_profileImageUrl : option string;
  usr_createdAt : Z;
  usr_updatedAt : Z
}.

(** [UpsertUser]: the columns picked by [upsertUserSchema]. *)
Record UpsertUser : Type := mkUpsertUser {
  up_id : string;
  up_email : option string;
  up_firstName : option string;
  up_lastName : option string;
  up_profileImageUrl : option string
}.

(** The object [sessionData] handed to [createChatSession]; the title is
    whatever the body carries. *)
Record InsertChatSession : Type := mkInsertChatSession {
  ics_title : jsval;
  ics_userId : string
}.

(** The operations of [storage] that the user and session routes call;
    total, like those of [IStorage]. *)
Class IAccountStorage (St : Type) : Type := {
  getUser : St -> string -> option User;
  upsertUser : St -> UpsertUser -> User * St;
  createChatSession : St -> InsertChatSession -> ChatSession * St;
  getAllChatSessions : St -> string -> list ChatSession
}.

Inductive AccountBody : Type :=
| UserBody (u : User)
| SessionBody (s : ChatSession)
| SessionsBody (l : list ChatSession).

Definition DEFAULT_USER_ID : string := "default-user".

Definition defaultUser : UpsertUser :=
  {| up_id := DEFAULT_USER_ID;
     up_email := Some "user@aniverse.ai";
     up_firstName := Some "AniVerse";
     up_lastName := Some "User";
     up_profileImageUrl := Some EmptyString |}.

Section AccountRoutes.
Context {St : Type} `{IAccountStorage St}.

Definition ensureDefaultUser (st : St) : User * St :=
  match getUser st DEFAULT_USER_ID with
  | Some user => (user, st)
  | None => upsertUser st defaultUser
  end.

(** GET /api/auth/user *)
Definition authUser (st : St) : Outcome AccountBody St FetchRequest :=
  let '(user, st) := ensureDefaultUser st in
  mkOutcome (mkResponse 200 (UserBody user)) st [].

(** The object [sessionData] built from [req.body.title]. *)
Definition sessionData (title : jsval) : InsertChatSession :=
  {| ics_title := js_or title (JStr "New Chat");
     ics_userId := DEFAULT_USER_ID |}.

(** POST /api/chat/sessions *)
Definition createSession (st : St) (title : jsval)
    : Outcome AccountBody St FetchRequest :=
  let '(_, st) := ensureDefaultUser st in
  let '(session, st) := createChatSession st (sessionData title) in
  mkOutcome (mkResponse 200 (SessionBody session)) st [].

(** GET /api/chat/sessions *)
Definition listSessions (st : St) : Outcome AccountBody St FetchRequest :=
  let '(_, st) := ensureDefaultUser st in
  let sessions := getAllChatSessions st DEFAULT_USER_ID in
  mkOutcome (mkResponse 200 (SessionsBody sessions)) st [].

End AccountRoutes.

End PrimaryAccount.

(** ** The chat page of the client: choosing the session *)

Module Client.

(** [ChatSession] of [lib/chat-api.ts]. *)
Record ChatSession : Type := mkChatSession {
  cs_id : string;
  cs_title : option string;
  cs_createdAt : string;
  cs_updatedAt : string
}.

(** The state the page keeps: the item [currentSessionId] of
    [localStorage] and the two state variables. *)
Record State : Type := mkState {
  localStorage : option string;
  currentSessionId : string;
  isInitializing : bool
}.

(** The state after a run, with whether [chatApi.createSession()] was
    called and whether the list of sessions is fetched again. *)
Record Run : Type := mkRun {
  state : State;
  created : bool;
  refetched : bool
}.

(** [sessions?.some(s => s.id === storedSessionId)] *)
Definition sessionExists (sessions : option (list ChatSession))
    (storedSessionId : string) : bool :=
  match sessions with
  | Some l => existsb (fun s => String.eqb (cs_id s) storedSessionId) l
  | None => false
  end.

(** [initializeSession]. [sessions] is the data of the sessions query
    ([None] while it is undefined) and [newSession] what
    [chatApi.createSession()] yields if it is called ([None] when it
    throws). *)
Definition initializeSession (sessions : option (list ChatSession))
    (newSession : option ChatSession) (st : State) : Run :=
  let storedSessionId := localStorage st in
  if truthy_str storedSessionId
     && sessionExists sessions (default EmptyString storedSessionId)
  then
    mkRun (mkState storedSessionId (default EmptyString storedSessionId) false)
          false false
  else
    let storage :=
      if truthy_str storedSessionId then None else storedSessionId in
    match sessions with
    | Some (latestSession :: _) =>
        mkRun (mkState (Some (cs_id latestSession)) (cs_id latestSession) false)
              false false
    | Some [] | None =>
        match newSession with
        | Some newSession =>
            mkRun (mkState (Some (cs_id newSession)) (cs_id newSession) false)
                  true true
        | None =>
            mkRun (mkState storage (currentSessionId st) false) true false
        end
    end.

End Client.

(** ** More sample data *)

Module Sample2.

(** Modelled from the spec: the missing implementation of [./storage] for
    the user and session routes, on the tables of [Primary.Db] with a table
    of users beside them.  [upsertUser] writes the row of that id and
    [createChatSession] adds a session with a new id; the order in which
    [getAllChatSessions] returns the sessions of a user is not modelled. *)
Record AccountDb : Type := mkAccountDb {
  users : gmap string PrimaryAccount.User;
  tables : Primary.Db
}.

Definition account_upsertUser (db : AccountDb) (u : PrimaryAccount.UpsertUser)
    : PrimaryAccount.User * AccountDb :=
  let row :=
    PrimaryAccount.mkUser (PrimaryAccount.up_id u) (PrimaryAccount.up_email u)
      (PrimaryAccount.up_firstName u) (PrimaryAccount.up_lastName u)
      (PrimaryAccount.up_profileImageUrl u)
      (Primary.clock (tables db)) (Primary.clock (tables db)) in
  (row, mkAccountDb (<[PrimaryAccount.up_id u := row]> (users db)) (tables db)).

Definition title_of (v : jsval) : option string :=
  match v with JStr s => Some s | _ => None end.

Definition account_createChatSession (db : AccountDb)
    (d : PrimaryAccount.InsertChatSession) : Primary.ChatSession * AccountDb :=
  let t := tables db in
  let id := Primary.gen_random_uuid (Primary.uuid_seq t) in
  let row :=
    Primary.mkChatSession id (PrimaryAccount.ics_userId d)
      (title_of (PrimaryAccount.ics_title d)) (Primary.clock t)
      (Primary.clock t) in
  (row,
   mkAccountDb (users db)
     (Primary.mkDb (<[id := row]> (Primary.chat_sessions t))
        (Primary.messages t) (Datatypes.S (Primary.uuid_seq t))
        (Primary.clock t + 1))).

#[global] Instance account_storage : PrimaryAccount.IAccountStorage AccountDb := {|
  PrimaryAccount.getUser db id := users db !! id;
  PrimaryAccount.upsertUser := account_upsertUser;
  PrimaryAccount.createChatSession := account_createChatSession;
  PrimaryAccount.getAllChatSessions db userId :=
    filter (fun s => Primary.ses_userId s = userId)
           (map snd (map_to_list (Primary.chat_sessions (tables db))))
|}.

Definition fresh : AccountDb := mkAccountDb ∅ Sample.db.


Definition new_session : Client.ChatSession :=
  Client.mkChatSession "s3" (Some "New Chat") "2025-10-03T10:00:00Z"
    "2025-10-03T10:00:00Z".

Definition stale : Client.State := Client.mkState (Some "gone") EmptyString true.

(** The backend lists [s2] before [s1]; the page has [s1] stored. *)
Definition listed : list Client.ChatSession :=
  [ Client.mkChatSession "s2" (Some "New Chat") "2025-10-03T09:00:00Z"
      "2025-10-03T09:00:00Z";
    Client.mkChatSession "s1" None "2025-10-02T09:00:00Z"
      "2025-10-02T09:00:00Z" ].

Definition returning : Client.State :=
  Client.mkState (Some "s1") EmptyString true.

(** A key of five two-byte characters: ten bytes, five UTF-16 units. *)
Definition accented_key : string := "ééééé".

(** A store of the primary deployment whose session [s2] has twelve
    earlier messages, user and assistant in turn. *)
Definition long_db : Primary.Db :=
  {| Primary.chat_sessions := {[ "s2" := Sample.session "s2" ]};
     Primary.messages :=
       map (fun n =>
              Primary.mkMessage (Sample.uuid n) "s2"
                (if Nat.even n then "user" else "assistant")
                (pretty n) (Z.of_nat n))
           (seq 0 12);
     Primary.uuid_seq := 12;
     Primary.clock := 12 |}.

End Sample2.

(** ** Facts about the shared helpers *)

Section Helpers.
Context {A : Type}.
Implicit Types l : list A.

Lemma slice_last_length (n : nat) l :
  length (slice_last n l) = Nat.min (length l) n.
Proof. unfold slice_last. rewrite length_drop. lia. Qed.

Lemma slice_last_suffix (n : nat) l :
  (take (length l - n) l ++ slice_last n l)%list = l.
Proof. apply take_drop. Qed.

End Helpers.

Lemma is_empty_spec (s : string) : is_empty s = true <-> s = EmptyString.
Proof. destruct s; simpl; split; congruence. Qed.

Lemma response_ok_spec (status : Z) :
  response_ok status = true <-> 200 <= status <= 299.
Proof. unfold response_ok. rewrite andb_true_iff, !Z.leb_le. tauto. Qed.

(** ** The in-memory deployment *)

Section NetlifyFacts.
Import Netlify.
Implicit Types (c : gmap string (list Message)) (e : Env).

Lemma netlify_post_rejected env_key e c sid content :
  truthy content = false ->
  postMessage env_key e c sid content =
  mkOutcome (mkResponse 400 (ErrorBody "Message content is required")) c [].
Proof. intros Hc. unfold postMessage. rewrite Hc. reflexivity. Qed.

Lemma netlify_post_unconfigured env_key e c sid content :
  truthy content = true ->
  unconfigured env_key = true ->
  postMessage env_key e c sid content =
  mkOutcome (mkResponse 200 (ChatBody not_configured_text sid))
    (<[sid := (pushed e c sid content
               ++ [aiMessage e sid not_configured_text])%list]> c)
    [].
Proof. intros Hc Hk. unfold postMessage. rewrite Hc, Hk. reflexivity. Qed.

Lemma netlify_post_configured env_key e c sid content :
  truthy content = true ->
  unconfigured env_key = false ->
  postMessage env_key e c sid content =
  mkOutcome
    (mkResponse 200
       (ChatBody (replyText (fetch e (request_sent env_key e c sid content)))
                 sid))
    (<[sid := (pushed e c sid content
               ++ [aiMessage e sid
                     (replyText
                        (fetch e (request_sent env_key e c sid content)))])%list]>
       c)
    [request_sent env_key e c sid content].
Proof. intros Hc Hk. unfold postMessage. rewrite Hc, Hk. reflexivity. Qed.

Lemma netlify_unset_key env_key :
  truthy_str env_key = false -> unconfigured env_key = true.
Proof.
  intros Hk. unfold unconfigured, PERPLEXITY_API_KEY. rewrite Hk. reflexivity.
Qed.

Lemma netlify_getMessages_seed e c sid :
  c !! sid = None \/ c !! sid = Some [] ->
  getMessages e c sid =
  json (MessagesBody [greetingMessage e sid])
       (<[sid := [greetingMessage e sid]]> c).
Proof. intros [Hc | Hc]; unfold getMessages; rewrite Hc; reflexivity. Qed.

Lemma netlify_getMessages_stored e c sid m l :
  c !! sid = Some (m :: l) ->
  getMessages e c sid = json (MessagesBody (m :: l)) c.
Proof. intros Hc. unfold getMessages. rewrite Hc. reflexivity. Qed.

Lemma netlify_statusText_cases (status : Z) :
  statusText status =
  if decide (status = 401) then auth_text
  else if decide (status = 429) then rate_limit_text
  else unavailable_text.
Proof.
  unfold statusText.
  destruct (Z.eqb_spec status 401), (Z.eqb_spec status 429);
    repeat case_decide; congruence.
Qed.

Lemma netlify_reply_failed (status : Z) (p : payload) :
  response_ok status = false ->
  replyText (FetchResponse status p) = statusText status.
Proof. intros Hok. simpl. rewrite Hok. reflexivity. Qed.

Lemma netlify_reply_aborted (apiError : js_error) :
  err_name apiError = "AbortError" ->
  replyText (FetchRejected apiError) = timeout_text.
Proof. intros Hn. simpl. unfold apiErrorText. rewrite Hn. reflexivity. Qed.

Lemma netlify_stored_last c sid (l : list Message) e text :
  stored_last (<[sid := (l ++ [aiMessage e sid text])%list]> c) sid text.
Proof.
  exists (l ++ [aiMessage e sid text])%list, (aiMessage e sid text).
  rewrite lookup_insert_eq, last_snoc. repeat split.
Qed.

End NetlifyFacts.

(** ** The primary deployment, for every implementation of the storage *)

Section PrimaryFacts.
Import Primary.
Context {St : Type} `{IStorage St}.
Implicit Types (st : St) (fetch : FetchRequest -> fetch_result).

Lemma primary_parse_spec (content : jsval) (s : string) :
  chatMessageSchema_parse content = Some s <->
  content = JStr s /\ s <> EmptyString.
Proof.
  destruct content; simpl; try (split; [congruence | intros [? _]; congruence]).
  destruct s0 as [| a s0]; simpl.
  - split; [congruence | intros [Hs Hne]; congruence].
  - split; [intros [= <-]; split; congruence | intros [[= <-] _]; reflexivity].
Qed.

Lemma primary_post_invalid env_key fetch st sid content :
  chatMessageSchema_parse content = None ->
  postMessage env_key fetch st sid content =
  mkOutcome (mkResponse 500 (ErrorBody "Failed to process message")) st [].
Proof. intros Hp. unfold postMessage. rewrite Hp. reflexivity. Qed.

Lemma primary_post_unknown env_key fetch st sid content s :
  chatMessageSchema_parse content = Some s ->
  getChatSession st sid = None ->
  postMessage env_key fetch st sid content =
  mkOutcome (mkResponse 404 (ErrorBody "Session not found")) st [].
Proof. intros Hp Hs. unfold postMessage. rewrite Hp, Hs. reflexivity. Qed.

Lemma primary_post_unconfigured env_key fetch st sid content s :
  chatMessageSchema_parse content = Some s ->
  is_Some (getChatSession st sid) ->
  truthy_str env_key = false ->
  postMessage env_key fetch st sid content =
  answered (saved st sid s) sid not_configured_text
    (msg_content
       (createMessage (saved st sid s) (assistant sid not_configured_text)).1)
    [].
Proof.
  intros Hp [ses Hs] Hk. unfold postMessage, answered, saved, user.
  rewrite Hp, Hs, Hk. simpl.
  destruct (createMessage st _) as [userMessage st1]. simpl.
  destruct (createMessage st1 _) as [errorMessage st2]. reflexivity.
Qed.

Lemma primary_post_configured env_key fetch st sid content s :
  chatMessageSchema_parse content = Some s ->
  is_Some (getChatSession st sid) ->
  truthy_str env_key = true ->
  postMessage env_key fetch st sid content =
  match reply (fetch (request_sent env_key st sid s)) with
  | Substitute errorContent =>
      answered (saved st sid s) sid errorContent
        (msg_content
           (createMessage (saved st sid s) (assistant sid errorContent)).1)
        [request_sent env_key st sid s]
  | Completion aiMessage =>
      answered (saved st sid s) sid aiMessage aiMessage
        [request_sent env_key st sid s]
  end.
Proof.
  intros Hp [ses Hs] Hk.
  unfold postMessage, answered, request_sent, loaded, saved, user.
  rewrite Hp, Hs, Hk. simpl.
  destruct (createMessage st _) as [userMessage st1]. simpl.
  destruct (reply _) as [aiMessage | errorContent];
    destruct (createMessage st1 _) as [row st2]; reflexivity.
Qed.

Lemma primary_statusText_cases (status : Z) :
  statusText status =
  if decide (status = 401) then auth_text
  else if decide (status = 429) then rate_limit_text
  else if decide (status = 400) then bad_request_text
  else unavailable_text.
Proof.
  unfold statusText.
  destruct (Z.eqb_spec status 401), (Z.eqb_spec status 429),
    (Z.eqb_spec status 400); repeat case_decide; congruence.
Qed.

Lemma primary_reply_failed (status : Z) (p : payload) :
  response_ok status = false ->
  reply (FetchResponse status p) = Substitute (statusText status).
Proof. intros Hok. simpl. rewrite Hok. reflexivity. Qed.

Lemma primary_reply_aborted (fetchError : js_error) :
  err_name fetchError = "AbortError" ->
  reply (FetchRejected fetchError) = Substitute timeout_text.
Proof. intros Hn. simpl. unfold fetchErrorText. rewrite Hn. reflexivity. Qed.

(** With a storage that keeps the laws, what is sent back is what is
    stored, and the stored turn closes the history of the session. *)
Context `{!StorageLaws St}.

Lemma primary_stored_content st sid content :
  msg_content (createMessage st (assistant sid content)).1 = content.
Proof. apply createMessage_row. Qed.

Lemma primary_history_after st sid content :
  getMessagesBySessionId (createMessage st (assistant sid content)).2 sid =
  (getMessagesBySessionId st sid
     ++ [(createMessage st (assistant sid content)).1])%list.
Proof.
  rewrite createMessage_history. simpl.
  destruct (decide (sid = sid)); [reflexivity | contradiction].
Qed.

Lemma primary_loaded st sid s :
  loaded st sid s =
  (getMessagesBySessionId st sid ++ [(createMessage st (user sid s)).1])%list.
Proof.
  unfold loaded, saved. rewrite createMessage_history. simpl.
  destruct (decide (sid = sid)); [reflexivity | contradiction].
Qed.

Lemma primary_answered_reads st sid content sent :
  let o := answered st sid content content sent in
  exists m : Message,
    m = (createMessage st (assistant sid content)).1 /\
    getMessagesBySessionId (store o) sid =
      (getMessagesBySessionId st sid ++ [m])%list /\
    msg_sessionId m = sid /\
    msg_role m = "assistant" /\
    msg_content m = content /\
    body (response o) = ChatBody (msg_content m) sid.
Proof.
  simpl. eexists. split; [reflexivity |].
  destruct (createMessage_row st (assistant sid content)) as (Hs & Hr & Hc).
  simpl in *.
  rewrite primary_history_after, Hc. repeat split; assumption.
Qed.

Lemma primary_post_answered env_key fetch st sid content s :
  chatMessageSchema_parse content = Some s ->
  is_Some (getChatSession st sid) ->
  truthy_str env_key = true ->
  postMessage env_key fetch st sid content =
  answered (saved st sid s) sid
    (replyText (fetch (request_sent env_key st sid s)))
    (replyText (fetch (request_sent env_key st sid s)))
    [request_sent env_key st sid s].
Proof.
  intros Hp Hs Hk.
  rewrite (primary_post_configured env_key fetch st sid content s Hp Hs Hk).
  unfold replyText. destruct (reply _); [reflexivity |].
  rewrite primary_stored_content. reflexivity.
Qed.

Lemma primary_post_silent env_key fetch st sid content s :
  chatMessageSchema_parse content = Some s ->
  is_Some (getChatSession st sid) ->
  truthy_str env_key = false ->
  postMessage env_key fetch st sid content =
  answered (saved st sid s) sid not_configured_text not_configured_text [].
Proof.
  intros Hp Hs Hk.
  rewrite (primary_post_unconfigured env_key fetch st sid content s Hp Hs Hk).
  rewrite primary_stored_content. reflexivity.
Qed.

Lemma primary_stored_last st sid content sent :
  stored_last (store (answered st sid content content sent)) sid content.
Proof.
  destruct (primary_answered_reads st sid content sent)
    as (m & _ & Hh & _ & Hr & Hc & _).
  exists m. rewrite Hh, last_snoc. repeat split; assumption.
Qed.

End PrimaryFacts.

(** The store modelled above keeps the laws. *)
#[global] Instance db_laws : Primary.StorageLaws Primary.Db.
Proof.
  split.
  - intros st ins. simpl. repeat split.
  - intros st ins sid. simpl. rewrite filter_app. simpl.
    unfold filter at 2, list_filter. simpl.
    destruct (decide (sid = Primary.ins_sessionId ins)) as [Heq | Hne].
    + rewrite decide_True by congruence. reflexivity.
    + rewrite decide_False by congruence. apply app_nil_r.
  - intros st ins sid. reflexivity.
  - intros st sid sid'. simpl. case_decide as Hd.
    + subst. apply lookup_delete_eq.
    + apply lookup_delete_ne. congruence.
  - intros st sid sid'. simpl. case_decide as Hd.
    + subst sid'.
      induction (Primary.messages st) as [| m l IH]; [reflexivity |].
      rewrite filter_cons.
      destruct (decide (Primary.msg_sessionId m <> sid)) as [Hm | Hm];
        [rewrite filter_cons_False by exact Hm |]; exact IH.
    + apply list_filter_filter_l. intros m Hm. congruence.
Qed.

(** ** The claims *)

(** C1. Posting a message whose content is the empty string writes nothing
    to the store and calls nothing upstream in either deployment.  The
    in-memory deployment answers 400 "Message content is required"; in the
    primary deployment the error thrown by [chatMessageSchema.parse] lands
    in the handler's only [catch], so the answer is 500 "Failed to process
    message" and not 400. *)
Theorem C1_empty_content :
  (forall (St : Type) (IS : Primary.IStorage St) env_key fetch (st : St) sid,
     Primary.postMessage env_key fetch st sid (JStr EmptyString) =
     mkOutcome
       (mkResponse 500 (Primary.ErrorBody "Failed to process message")) st [])
  /\
  (forall env_key e (c : gmap string (list Netlify.Message)) sid,
     Netlify.postMessage env_key e c sid (JStr EmptyString) =
     mkOutcome
       (mkResponse 400 (Netlify.ErrorBody "Message content is required")) c []).
Proof.
  split.
  - intros. apply primary_post_invalid. reflexivity.
  - intros. apply netlify_post_rejected. reflexivity.
Qed.

(** C2, as stated, fails in the primary deployment: the first read of a
    session without messages returns the empty list, not a greeting. *)
Lemma C2_primary_reads_no_greeting :
  Primary.getMessagesBySessionId Sample.db "s1" = [] /\
  Primary.getMessages Sample.db "s1" =
    mkOutcome (mkResponse 200 (Primary.MessagesBody [])) Sample.db [] /\
  ~ (exists m : Primary.Message,
       body (response (Primary.getMessages Sample.db "s1")) =
       Primary.MessagesBody [m]).
Proof.
  split; [reflexivity |]. split; [reflexivity |].
  intros [m Hm]. vm_compute in Hm. discriminate Hm.
Qed.

(** C2 (amended). In the in-memory deployment the first read of a session
    with no messages (or of an unknown id) returns exactly one assistant
    message carrying the fixed greeting and stores it, and a second read
    returns that same message and leaves the store as it is.  In the
    primary deployment the route seeds nothing: the read of an existing
    session returns exactly the messages the storage holds for it, so the
    empty list when there are none, and leaves the store unchanged. *)
Theorem C2_greeting_seed :
  (forall e1 e2 (c : gmap string (list Netlify.Message)) sid,
     c !! sid = None \/ c !! sid = Some [] ->
     let first := Netlify.getMessages e1 c sid in
     let m := Netlify.greetingMessage e1 sid in
     response first = mkResponse 200 (Netlify.MessagesBody [m]) /\
     Netlify.msg_role m = "assistant" /\
     Netlify.msg_content m = JStr Netlify.greeting /\
     store first !! sid = Some [m] /\
     Netlify.getMessages e2 (store first) sid =
       mkOutcome (response first) (store first) [])
  /\
  (forall (St : Type) (IS : Primary.IStorage St) (st : St) sid,
     is_Some (Primary.getChatSession st sid) ->
     Primary.getMessages st sid =
     mkOutcome
       (mkResponse 200
          (Primary.MessagesBody (Primary.getMessagesBySessionId st sid)))
       st []).
Proof.
  split.
  - intros e1 e2 c sid Hc first m. subst first m.
    rewrite (netlify_getMessages_seed e1 c sid Hc). simpl.
    repeat split.
    + apply lookup_insert_eq.
    + apply netlify_getMessages_stored. apply lookup_insert_eq.
  - intros St IS st sid [ses Hs]. unfold Primary.getMessages.
    rewrite Hs. reflexivity.
Qed.

Lemma C2_greeting_seed_witness :
  (Sample.conversations !! "s9" = None \/
   Sample.conversations !! "s9" = Some []) /\
  is_Some (Primary.getChatSession Sample.db "s2") /\
  response (Netlify.getMessages Sample.env0 Sample.conversations "s9") =
    mkResponse 200
      (Netlify.MessagesBody [Netlify.greetingMessage Sample.env0 "s9"]) /\
  length (Primary.getMessagesBySessionId Sample.db "s2") = 2%nat /\
  Primary.getMessages Sample.db "s2" =
    mkOutcome
      (mkResponse 200
         (Primary.MessagesBody (Primary.getMessagesBySessionId Sample.db "s2")))
      Sample.db [].
Proof.
  assert (H1 : Sample.conversations !! "s9" = None \/
               Sample.conversations !! "s9" = Some [])
    by (left; reflexivity).
  assert (H2 : is_Some (Primary.getChatSession Sample.db "s2"))
    by (eexists; reflexivity).
  split; [exact H1 |]. split; [exact H2 |].
  destruct C2_greeting_seed as [Hn Hp].
  split; [| split; [reflexivity |]].
  - exact (proj1 (Hn Sample.env0 Sample.env0 Sample.conversations "s9" H1)).
  - exact (Hp Primary.Db Primary.db_storage Sample.db "s2" H2).
Defined.

(** C3, as stated, fails in the in-memory deployment: a post to an id the
    map does not know is answered 200 and both messages are stored. *)
Lemma C3_netlify_post_unknown_session :
  Sample.conversations !! "nope" = None /\
  status (response (Netlify.postMessage Sample.key Sample.env0
                      Sample.conversations "nope" (JStr "hi"))) <> 404 /\
  response (Netlify.postMessage Sample.key Sample.env0 Sample.conversations
              "nope" (JStr "hi")) =
    mkResponse 200 (Netlify.ChatBody "Try Mushishi." "nope") /\
  store (Netlify.postMessage Sample.key Sample.env0 Sample.conversations
           "nope" (JStr "hi")) !! "nope" =
    Some [ Netlify.userMessage Sample.env0 "nope" (JStr "hi");
           Netlify.aiMessage Sample.env0 "nope" "Try Mushishi." ].
Proof.
  split; [reflexivity |]. split; [vm_compute; discriminate |].
  split; vm_compute; reflexivity.
Qed.

(** C3 (amended). In the primary deployment a post with valid content (a
    non-empty string) to an id without a session is answered 404 "Session
    not found", stores nothing and calls nothing upstream.  The in-memory
    deployment does not check the id: the handler gets or initialises the
    conversation, answers 200 and stores the user message and the
    assistant's reply under that id. *)
Theorem C3_post_unknown_session :
  (forall (St : Type) (IS : Primary.IStorage St) env_key fetch (st : St)
          sid content s,
     Primary.chatMessageSchema_parse content = Some s ->
     Primary.getChatSession st sid = None ->
     Primary.postMessage env_key fetch st sid content =
     mkOutcome (mkResponse 404 (Primary.ErrorBody "Session not found")) st [])
  /\
  (forall env_key e (c : gmap string (list Netlify.Message)) sid content,
     truthy content = true ->
     c !! sid = None ->
     let o := Netlify.postMessage env_key e c sid content in
     exists text : string,
       response o = mkResponse 200 (Netlify.ChatBody text sid) /\
       store o !! sid =
         Some [ Netlify.userMessage e sid content;
                Netlify.aiMessage e sid text ]).
Proof.
  split.
  - intros. eapply primary_post_unknown; eassumption.
  - intros env_key e c sid content Hc Hs o. subst o.
    destruct (Netlify.unconfigured env_key) eqn:Hk.
    + rewrite netlify_post_unconfigured by assumption.
      eexists. split; [reflexivity |]. simpl.
      rewrite lookup_insert_eq. unfold Netlify.pushed. rewrite Hs. reflexivity.
    + rewrite netlify_post_configured by assumption.
      eexists. split; [reflexivity |]. simpl.
      rewrite lookup_insert_eq. unfold Netlify.pushed. rewrite Hs. reflexivity.
Qed.

Lemma C3_post_unknown_session_witness :
  (Primary.chatMessageSchema_parse (JStr "hi") = Some "hi" /\
   Primary.getChatSession Sample.db "nope" = None /\
   Primary.postMessage Sample.key (fun _ => Sample.completion) Sample.db "nope"
     (JStr "hi") =
   mkOutcome (mkResponse 404 (Primary.ErrorBody "Session not found"))
     Sample.db [])
  /\
  (truthy (JStr "hi") = true /\
   Sample.conversations !! "nope" = None /\
   exists text : string,
     response (Netlify.postMessage None Sample.env0 Sample.conversations
                 "nope" (JStr "hi")) =
       mkResponse 200 (Netlify.ChatBody text "nope") /\
     store (Netlify.postMessage None Sample.env0 Sample.conversations
              "nope" (JStr "hi")) !! "nope" =
       Some [ Netlify.userMessage Sample.env0 "nope" (JStr "hi");
              Netlify.aiMessage Sample.env0 "nope" text ]).
Proof.
  split.
  - split; [reflexivity |]. split; [reflexivity |].
    apply (proj1 C3_post_unknown_session Primary.Db Primary.db_storage
             Sample.key (fun _ => Sample.completion) Sample.db "nope"
             (JStr "hi") "hi"); reflexivity.
  - split; [reflexivity |]. split; [reflexivity |].
    exact (proj2 C3_post_unknown_session None Sample.env0
             Sample.conversations "nope" (JStr "hi") eq_refl eq_refl).
Defined.

(** C4. The message array sent upstream is the fixed system prompt followed
    by the last N messages of the history the handler holds when it builds
    the request (the stored history with the user message just saved), in
    their order and each with its own role and content: 1 + min(L, N)
    entries for a history of length L, with N = 10 in the primary and
    N = 8 in the in-memory deployment. *)
Theorem C4_history_window :
  (forall (St : Type) (IS : Primary.IStorage St) env_key fetch (st : St)
          sid content s,
     Primary.chatMessageSchema_parse content = Some s ->
     is_Some (Primary.getChatSession st sid) ->
     truthy_str env_key = true ->
     let history := Primary.loaded st sid s in
     exists rq : Primary.FetchRequest,
       calls (Primary.postMessage env_key fetch st sid content) = [rq] /\
       Primary.rq_messages rq =
         Primary.mkPM "system" system_prompt
           :: map (fun m =>
                     Primary.mkPM (Primary.msg_role m) (Primary.msg_content m))
                  (slice_last 10 history) /\
       length (Primary.rq_messages rq) =
         (1 + Nat.min (length history) 10)%nat /\
       (take (length history - 10) history ++ slice_last 10 history)%list =
         history)
  /\
  (forall env_key e (c : gmap string (list Netlify.Message)) sid content,
     truthy content = true ->
     Netlify.unconfigured env_key = false ->
     let history := Netlify.pushed e c sid content in
     exists rq : Netlify.FetchRequest,
       calls (Netlify.postMessage env_key e c sid content) = [rq] /\
       Netlify.rq_messages rq =
         Netlify.mkPM "system" (JStr system_prompt)
           :: map (fun m =>
                     Netlify.mkPM (Netlify.msg_role m) (Netlify.msg_content m))
                  (slice_last 8 history) /\
       length (Netlify.rq_messages rq) =
         (1 + Nat.min (length history) 8)%nat /\
       (take (length history - 8) history ++ slice_last 8 history)%list =
         history).
Proof.
  split.
  - intros St IS env_key fetch st sid content s Hp Hs Hk history.
    exists (Primary.request_sent env_key st sid s). split.
    + rewrite (primary_post_configured env_key fetch st sid content s Hp Hs Hk).
      destruct (Primary.reply _); reflexivity.
    + split; [reflexivity |]. split; [| apply slice_last_suffix].
      simpl. rewrite length_map, slice_last_length. reflexivity.
  - intros env_key e c sid content Hc Hk history.
    exists (Netlify.request_sent env_key e c sid content). split.
    + rewrite netlify_post_configured by assumption. reflexivity.
    + split; [reflexivity |]. split; [| apply slice_last_suffix].
      simpl. rewrite length_map, slice_last_length. reflexivity.
Qed.

Lemma C4_history_window_witness :
  (Primary.chatMessageSchema_parse (JStr "more") = Some "more" /\
   is_Some (Primary.getChatSession Sample2.long_db "s2") /\
   truthy_str Sample.key = true /\
   length (Primary.loaded Sample2.long_db "s2" "more") = 13%nat /\
   exists rq : Primary.FetchRequest,
     calls (Primary.postMessage Sample.key (fun _ => Sample.completion)
              Sample2.long_db "s2" (JStr "more")) = [rq] /\
     Primary.rq_messages rq =
       [ Primary.mkPM "system" system_prompt;
         Primary.mkPM "assistant" "3"; Primary.mkPM "user" "4";
         Primary.mkPM "assistant" "5"; Primary.mkPM "user" "6";
         Primary.mkPM "assistant" "7"; Primary.mkPM "user" "8";
         Primary.mkPM "assistant" "9"; Primary.mkPM "user" "10";
         Primary.mkPM "assistant" "11"; Primary.mkPM "user" "more" ] /\
     length (Primary.rq_messages rq) = 11%nat)
  /\
  (truthy (JStr "more") = true /\
   Netlify.unconfigured Sample.key = false /\
   length (Netlify.pushed Sample.env0 Sample.long_conversations "s1"
             (JStr "more")) = 13%nat /\
   exists rq : Netlify.FetchRequest,
     calls (Netlify.postMessage Sample.key Sample.env0
              Sample.long_conversations "s1" (JStr "more")) = [rq] /\
     Netlify.rq_messages rq =
       [ Netlify.mkPM "system" (JStr system_prompt);
         Netlify.mkPM "user" (JStr "5"); Netlify.mkPM "user" (JStr "6");
         Netlify.mkPM "user" (JStr "7"); Netlify.mkPM "user" (JStr "8");
         Netlify.mkPM "user" (JStr "9"); Netlify.mkPM "user" (JStr "10");
         Netlify.mkPM "user" (JStr "11"); Netlify.mkPM "user" (JStr "more") ] /\
     length (Netlify.rq_messages rq) = 9%nat).
Proof.
  assert (Hs : is_Some (Primary.getChatSession Sample2.long_db "s2"))
    by (eexists; reflexivity).
  split.
  - split; [reflexivity |]. split; [exact Hs |].
    split; [reflexivity |]. split; [reflexivity |].
    destruct (proj1 C4_history_window Primary.Db Primary.db_storage
                Sample.key (fun _ => Sample.completion) Sample2.long_db "s2"
                (JStr "more") "more" eq_refl Hs eq_refl)
      as (rq & Hcalls & Hmsgs & Hlen & _).
    exists rq. split; [exact Hcalls |]. split; [exact Hmsgs | exact Hlen].
  - split; [reflexivity |]. split; [reflexivity |]. split; [reflexivity |].
    destruct (proj2 C4_history_window Sample.key Sample.env0
                Sample.long_conversations "s1" (JStr "more")
                eq_refl eq_refl) as (rq & Hcalls & Hmsgs & Hlen & _).
    exists rq. split; [exact Hcalls |]. split; [exact Hmsgs | exact Hlen].
Defined.

(** C5, as stated, fails in the in-memory deployment: a 400 from upstream
    has no string of its own there; it gets the generic one, the same as
    a 500. *)
Lemma C5_netlify_400_is_generic :
  response_ok 400 = false /\
  Netlify.statusText 400 = Netlify.statusText 500 /\
  response (Netlify.postMessage Sample.key (Sample.env (Sample.failed 400))
              Sample.conversations "s1" (JStr "hi")) =
    mkResponse 200 (Netlify.ChatBody Netlify.unavailable_text "s1") /\
  response (Netlify.postMessage Sample.key (Sample.env (Sample.failed 400))
              Sample.conversations "s1" (JStr "hi")) =
  response (Netlify.postMessage Sample.key (Sample.env (Sample.failed 500))
              Sample.conversations "s1" (JStr "hi")).
Proof. repeat split; vm_compute; reflexivity. Qed.

(** C5 (amended). When the upstream answers a valid post with a non-2xx
    status, the answer is 200 and one fixed string, chosen by the status,
    is stored as the assistant's turn and sent back.  The primary
    deployment has four pairwise distinct strings: one for 401
    (authentication and credits), one for 429 (rate limit), one for 400
    (request format) and a generic one for every other status.  The
    in-memory deployment has three: one for 401, one for 429 and the
    generic one for every other status, 400 included.  On a 401 the stored
    string is the authentication string in both. *)
Theorem C5_status_texts :
  (forall (St : Type) (IS : Primary.IStorage St) (L : Primary.StorageLaws St)
          env_key fetch (st : St) sid content s status p,
     Primary.chatMessageSchema_parse content = Some s ->
     is_Some (Primary.getChatSession st sid) ->
     truthy_str env_key = true ->
     fetch (Primary.request_sent env_key st sid s) = FetchResponse status p ->
     response_ok status = false ->
     let text :=
       if decide (status = 401) then Primary.auth_text
       else if decide (status = 429) then Primary.rate_limit_text
       else if decide (status = 400) then Primary.bad_request_text
       else Primary.unavailable_text in
     let o := Primary.postMessage env_key fetch st sid content in
     o = Primary.answered (Primary.saved st sid s) sid text text
           [Primary.request_sent env_key st sid s] /\
     response o = mkResponse 200 (Primary.ChatBody text sid) /\
     Primary.stored_last (store o) sid text)
  /\
  NoDup [ Primary.auth_text; Primary.rate_limit_text;
          Primary.bad_request_text; Primary.unavailable_text ]
  /\
  (forall env_key e (c : gmap string (list Netlify.Message)) sid content
          status p,
     truthy content = true ->
     Netlify.unconfigured env_key = false ->
     Netlify.fetch e (Netlify.request_sent env_key e c sid content) =
       FetchResponse status p ->
     response_ok status = false ->
     let text :=
       if decide (status = 401) then Netlify.auth_text
       else if decide (status = 429) then Netlify.rate_limit_text
       else Netlify.unavailable_text in
     let o := Netlify.postMessage env_key e c sid content in
     response o = mkResponse 200 (Netlify.ChatBody text sid) /\
     store o =
       <[sid := (Netlify.pushed e c sid content
                 ++ [Netlify.aiMessage e sid text])%list]> c /\
     Netlify.stored_last (store o) sid text)
  /\
  NoDup [ Netlify.auth_text; Netlify.rate_limit_text;
          Netlify.unavailable_text ].
Proof.
  split; [| split; [| split]].
  - intros St IS L env_key fetch st sid content s status p Hp Hs Hk Hf Hok.
    rewrite <- primary_statusText_cases. simpl.
    rewrite (primary_post_answered env_key fetch st sid content s Hp Hs Hk).
    unfold Primary.replyText.
    rewrite Hf, (primary_reply_failed status p Hok).
    split; [reflexivity |]. split; [reflexivity |].
    apply primary_stored_last.
  - compute_done.
  - intros env_key e c sid content status p Hc Hk Hf Hok.
    rewrite <- netlify_statusText_cases. simpl.
    rewrite netlify_post_configured by assumption.
    rewrite Hf, (netlify_reply_failed status p Hok). simpl.
    split; [reflexivity |]. split; [reflexivity |].
    apply netlify_stored_last.
  - compute_done.
Qed.

Lemma C5_status_texts_witness :
  (Primary.chatMessageSchema_parse (JStr "hi") = Some "hi" /\
   is_Some (Primary.getChatSession Sample.db "s2") /\
   truthy_str Sample.key = true /\
   response_ok 401 = false /\
   response (Primary.postMessage Sample.key (fun _ => Sample.failed 401)
               Sample.db "s2" (JStr "hi")) =
     mkResponse 200 (Primary.ChatBody Primary.auth_text "s2") /\
   Primary.stored_last
     (store (Primary.postMessage Sample.key (fun _ => Sample.failed 401)
               Sample.db "s2" (JStr "hi")))
     "s2" Primary.auth_text)
  /\
  (truthy (JStr "hi") = true /\
   Netlify.unconfigured Sample.key = false /\
   response_ok 429 = false /\
   response (Netlify.postMessage Sample.key (Sample.env (Sample.failed 429))
               Sample.conversations "s1" (JStr "hi")) =
     mkResponse 200 (Netlify.ChatBody Netlify.rate_limit_text "s1") /\
   Netlify.stored_last
     (store (Netlify.postMessage Sample.key (Sample.env (Sample.failed 429))
               Sample.conversations "s1" (JStr "hi")))
     "s1" Netlify.rate_limit_text).
Proof.
  assert (Hs : is_Some (Primary.getChatSession Sample.db "s2"))
    by (eexists; reflexivity).
  destruct C5_status_texts as (Hp & _ & Hn & _).
  split.
  - split; [reflexivity |]. split; [exact Hs |].
    split; [reflexivity |]. split; [reflexivity |].
    exact (proj2 (Hp Primary.Db Primary.db_storage db_laws
                    Sample.key (fun _ => Sample.failed 401) Sample.db "s2"
                    (JStr "hi") "hi" 401 (PayloadContent None)
                    eq_refl Hs eq_refl eq_refl eq_refl)).
  - split; [reflexivity |]. split; [reflexivity |]. split; [reflexivity |].
    destruct (Hn Sample.key (Sample.env (Sample.failed 429))
                Sample.conversations "s1" (JStr "hi") 429
                (PayloadContent None) eq_refl eq_refl eq_refl eq_refl)
      as (Hr & _ & Hl).
    split; [exact Hr | exact Hl].
Defined.

(** C6. When the upstream call of a valid post is aborted by the timeout
    (the fetch rejects with an [AbortError]; the request carries a timeout
    of 30000 ms in the primary and 25000 ms in the in-memory deployment),
    the handler does not fail: it stores the fixed took-too-long string as
    the assistant's turn and sends it back with status 200. *)
Theorem C6_timeout :
  (forall (St : Type) (IS : Primary.IStorage St) (L : Primary.StorageLaws St)
          env_key fetch (st : St) sid content s fetchError,
     Primary.chatMessageSchema_parse content = Some s ->
     is_Some (Primary.getChatSession st sid) ->
     truthy_str env_key = true ->
     fetch (Primary.request_sent env_key st sid s) = FetchRejected fetchError ->
     err_name fetchError = "AbortError" ->
     let o := Primary.postMessage env_key fetch st sid content in
     25000 <= Primary.rq_timeout (Primary.request_sent env_key st sid s)
       <= 30000 /\
     o = Primary.answered (Primary.saved st sid s) sid Primary.timeout_text
           Primary.timeout_text [Primary.request_sent env_key st sid s] /\
     response o = mkResponse 200 (Primary.ChatBody Primary.timeout_text sid) /\
     Primary.stored_last (store o) sid Primary.timeout_text)
  /\
  (forall env_key e (c : gmap string (list Netlify.Message)) sid content
          apiError,
     truthy content = true ->
     Netlify.unconfigured env_key = false ->
     Netlify.fetch e (Netlify.request_sent env_key e c sid content) =
       FetchRejected apiError ->
     err_name apiError = "AbortError" ->
     let o := Netlify.postMessage env_key e c sid content in
     25000 <= Netlify.rq_timeout (Netlify.request_sent env_key e c sid content)
       <= 30000 /\
     response o = mkResponse 200 (Netlify.ChatBody Netlify.timeout_text sid) /\
     store o =
       <[sid := (Netlify.pushed e c sid content
                 ++ [Netlify.aiMessage e sid Netlify.timeout_text])%list]> c /\
     Netlify.stored_last (store o) sid Netlify.timeout_text).
Proof.
  split.
  - intros St IS L env_key fetch st sid content s fetchError Hp Hs Hk Hf Hn.
    simpl. split; [lia |].
    rewrite (primary_post_answered env_key fetch st sid content s Hp Hs Hk).
    unfold Primary.replyText.
    rewrite Hf, (primary_reply_aborted fetchError Hn).
    split; [reflexivity |]. split; [reflexivity |].
    apply primary_stored_last.
  - intros env_key e c sid content apiError Hc Hk Hf Hn.
    simpl. split; [lia |].
    rewrite netlify_post_configured by assumption.
    rewrite Hf, (netlify_reply_aborted apiError Hn). simpl.
    split; [reflexivity |]. split; [reflexivity |].
    apply netlify_stored_last.
Qed.

Lemma C6_timeout_witness :
  (Primary.chatMessageSchema_parse (JStr "hi") = Some "hi" /\
   is_Some (Primary.getChatSession Sample.db "s2") /\
   truthy_str Sample.key = true /\
   response (Primary.postMessage Sample.key (fun _ => Sample.aborted)
               Sample.db "s2" (JStr "hi")) =
     mkResponse 200 (Primary.ChatBody Primary.timeout_text "s2") /\
   Primary.stored_last
     (store (Primary.postMessage Sample.key (fun _ => Sample.aborted)
               Sample.db "s2" (JStr "hi")))
     "s2" Primary.timeout_text)
  /\
  (truthy (JStr "hi") = true /\
   Netlify.unconfigured Sample.key = false /\
   response (Netlify.postMessage Sample.key (Sample.env Sample.aborted)
               Sample.conversations "s1" (JStr "hi")) =
     mkResponse 200 (Netlify.ChatBody Netlify.timeout_text "s1") /\
   Netlify.stored_last
     (store (Netlify.postMessage Sample.key (Sample.env Sample.aborted)
               Sample.conversations "s1" (JStr "hi")))
     "s1" Netlify.timeout_text).
Proof.
  assert (Hs : is_Some (Primary.getChatSession Sample.db "s2"))
    by (eexists; reflexivity).
  split.
  - split; [reflexivity |]. split; [exact Hs |]. split; [reflexivity |].
    destruct (proj1 C6_timeout Primary.Db Primary.db_storage db_laws
                Sample.key (fun _ => Sample.aborted) Sample.db "s2"
                (JStr "hi") "hi"
                (JsError "AbortError" (Some "This operation was aborted"))
                eq_refl Hs eq_refl eq_refl eq_refl) as (_ & _ & Hr & Hl).
    split; [exact Hr | exact Hl].
  - split; [reflexivity |]. split; [reflexivity |].
    destruct (proj2 C6_timeout Sample.key (Sample.env Sample.aborted)
                Sample.conversations "s1" (JStr "hi")
                (JsError "AbortError" (Some "This operation was aborted"))
                eq_refl eq_refl eq_refl eq_refl) as (_ & Hr & _ & Hl).
    split; [exact Hr | exact Hl].
Defined.

(** C7. When no credential is configured (the environment variable is unset
    or empty) a valid post makes no call to the upstream API: the fixed
    service-not-configured string is stored as the assistant's turn and
    sent back with status 200. *)
Theorem C7_no_credential :
  (forall (St : Type) (IS : Primary.IStorage St) (L : Primary.StorageLaws St)
          env_key fetch (st : St) sid content s,
     Primary.chatMessageSchema_parse content = Some s ->
     is_Some (Primary.getChatSession st sid) ->
     env_key = None \/ env_key = Some EmptyString ->
     let o := Primary.postMessage env_key fetch st sid content in
     calls o = [] /\
     response o =
       mkResponse 200 (Primary.ChatBody Primary.not_configured_text sid) /\
     store o =
       (Primary.createMessage (Primary.saved st sid s)
          (Primary.assistant sid Primary.not_configured_text)).2 /\
     Primary.stored_last (store o) sid Primary.not_configured_text)
  /\
  (forall env_key e (c : gmap string (list Netlify.Message)) sid content,
     truthy content = true ->
     env_key = None \/ env_key = Some EmptyString ->
     let o := Netlify.postMessage env_key e c sid content in
     calls o = [] /\
     response o =
       mkResponse 200 (Netlify.ChatBody Netlify.not_configured_text sid) /\
     store o =
       <[sid := (Netlify.pushed e c sid content
                 ++ [Netlify.aiMessage e sid Netlify.not_configured_text])%list]>
         c /\
     Netlify.stored_last (store o) sid Netlify.not_configured_text).
Proof.
  split.
  - intros St IS L env_key fetch st sid content s Hp Hs Hk. simpl.
    assert (Hk' : truthy_str env_key = false)
      by (destruct Hk as [-> | ->]; reflexivity).
    rewrite (primary_post_silent env_key fetch st sid content s Hp Hs Hk').
    repeat split. apply primary_stored_last.
  - intros env_key e c sid content Hc Hk. simpl.
    assert (Hk' : truthy_str env_key = false)
      by (destruct Hk as [-> | ->]; reflexivity).
    rewrite (netlify_post_unconfigured env_key e c sid content Hc
               (netlify_unset_key env_key Hk')).
    repeat split. apply netlify_stored_last.
Qed.

Lemma C7_no_credential_witness :
  (Primary.chatMessageSchema_parse (JStr "hi") = Some "hi" /\
   is_Some (Primary.getChatSession Sample.db "s1") /\
   calls (Primary.postMessage None (fun _ => Sample.completion) Sample.db "s1"
            (JStr "hi")) = [] /\
   response (Primary.postMessage None (fun _ => Sample.completion) Sample.db
               "s1" (JStr "hi")) =
     mkResponse 200 (Primary.ChatBody Primary.not_configured_text "s1"))
  /\
  (truthy (JStr "hi") = true /\
   calls (Netlify.postMessage None Sample.env0 Sample.conversations "s1"
            (JStr "hi")) = [] /\
   response (Netlify.postMessage None Sample.env0 Sample.conversations "s1"
               (JStr "hi")) =
     mkResponse 200 (Netlify.ChatBody Netlify.not_configured_text "s1")).
Proof.
  assert (Hs : is_Some (Primary.getChatSession Sample.db "s1"))
    by (eexists; reflexivity).
  split.
  - split; [reflexivity |]. split; [exact Hs |].
    destruct (proj1 C7_no_credential Primary.Db Primary.db_storage db_laws
                None (fun _ => Sample.completion) Sample.db "s1" (JStr "hi")
                "hi" eq_refl Hs (or_introl eq_refl)) as (Hc & Hr & _).
    split; [exact Hc | exact Hr].
  - split; [reflexivity |].
    destruct (proj2 C7_no_credential None Sample.env0 Sample.conversations
                "s1" (JStr "hi") eq_refl (or_introl eq_refl))
      as (Hc & Hr & _).
    split; [exact Hc | exact Hr].
Defined.

(** C8, as stated, fails in the in-memory deployment: deleting an id the
    map does not know is answered 200, not 404. *)
Lemma C8_netlify_delete_unknown :
  Sample.conversations !! "nope" = None /\
  status (response (Netlify.deleteSession Sample.conversations "nope")) <> 404 /\
  Netlify.deleteSession Sample.conversations "nope" =
    mkOutcome
      (mkResponse 200 (Netlify.InfoBody "Session deleted successfully"))
      Sample.conversations [].
Proof.
  split; [reflexivity |]. split; [vm_compute; discriminate | reflexivity].
Qed.

(** C8 (amended). In the primary deployment deleting an absent session is
    answered 404 and changes nothing; deleting an existing one is answered
    200 and removes the session with all of its messages: the storage then
    returns no session and the empty history for that id, and reading its
    messages over the route is answered 404.  The in-memory deployment
    never answers 404 to a delete: it answers 200 whether or not the id is
    known and removes the conversation, and a later read of the messages
    of that id returns one freshly seeded greeting and none of the old
    messages. *)
Theorem C8_delete_session :
  (forall (St : Type) (IS : Primary.IStorage St) (L : Primary.StorageLaws St)
          (st : St) sid,
     (Primary.getChatSession st sid = None ->
      Primary.deleteSession st sid =
      mkOutcome (mkResponse 404 (Primary.ErrorBody "Session not found")) st [])
     /\
     (is_Some (Primary.getChatSession st sid) ->
      let o := Primary.deleteSession st sid in
      response o =
        mkResponse 200 (Primary.InfoBody "Session deleted successfully") /\
      Primary.getChatSession (store o) sid = None /\
      Primary.getMessagesBySessionId (store o) sid = [] /\
      Primary.getMessages (store o) sid =
        mkOutcome (mkResponse 404 (Primary.ErrorBody "Session not found"))
          (store o) []))
  /\
  (forall e (c : gmap string (list Netlify.Message)) sid,
     let o := Netlify.deleteSession c sid in
     response o =
       mkResponse 200 (Netlify.InfoBody "Session deleted successfully") /\
     store o !! sid = None /\
     response (Netlify.getMessages e (store o) sid) =
       mkResponse 200
         (Netlify.MessagesBody [Netlify.greetingMessage e sid])).
Proof.
  split.
  - intros St IS L st sid. split.
    + intros Hs. unfold Primary.deleteSession. rewrite Hs. reflexivity.
    + intros [ses Hs]. unfold Primary.deleteSession. rewrite Hs. simpl.
      assert (Hgone : Primary.getChatSession
                        (Primary.deleteChatSession st sid) sid = None).
      { rewrite Primary.deleteChatSession_session.
        destruct (decide (sid = sid)); [reflexivity | contradiction]. }
      split; [reflexivity |]. split; [exact Hgone |]. split.
      * rewrite Primary.deleteChatSession_messages.
        destruct (decide (sid = sid)); [reflexivity | contradiction].
      * unfold Primary.getMessages. rewrite Hgone. reflexivity.
  - intros e c sid. simpl.
    split; [reflexivity |]. split; [apply lookup_delete_eq |].
    rewrite netlify_getMessages_seed by (left; apply lookup_delete_eq).
    reflexivity.
Qed.

Lemma C8_delete_session_witness :
  is_Some (Primary.getChatSession Sample.db "s2") /\
  length (Primary.getMessagesBySessionId Sample.db "s2") = 2%nat /\
  response (Primary.deleteSession Sample.db "s2") =
    mkResponse 200 (Primary.InfoBody "Session deleted successfully") /\
  Primary.getMessagesBySessionId
    (store (Primary.deleteSession Sample.db "s2")) "s2" = [] /\
  response (Primary.getMessages
              (store (Primary.deleteSession Sample.db "s2")) "s2") =
    mkResponse 404 (Primary.ErrorBody "Session not found").
Proof.
  assert (Hs : is_Some (Primary.getChatSession Sample.db "s2"))
    by (eexists; reflexivity).
  split; [exact Hs |]. split; [reflexivity |].
  destruct (proj2 (proj1 C8_delete_session Primary.Db Primary.db_storage
                     db_laws Sample.db "s2") Hs) as (Hr & _ & Hm & Hg).
  split; [exact Hr |]. split; [exact Hm |].
  exact (f_equal response Hg).
Defined.

(** C9. Whenever a post is answered 200, the [message] field of the answer
    is the content of the assistant message stored by that same call, the
    last of the two messages the call appends to the history of the
    session; on upstream success and on every substituted failure text
    alike, in both deployments. *)
Theorem C9_response_is_stored :
  (forall (St : Type) (IS : Primary.IStorage St) (L : Primary.StorageLaws St)
          env_key fetch (st : St) sid content,
     let o := Primary.postMessage env_key fetch st sid content in
     status (response o) = 200 ->
     exists (text : string) (u m : Primary.Message),
       body (response o) = Primary.ChatBody text sid /\
       Primary.getMessagesBySessionId (store o) sid =
         (Primary.getMessagesBySessionId st sid ++ [u; m])%list /\
       Primary.msg_role u = "user" /\
       content = JStr (Primary.msg_content u) /\
       Primary.msg_role m = "assistant" /\
       Primary.msg_content m = text)
  /\
  (forall env_key e (c : gmap string (list Netlify.Message)) sid content,
     let o := Netlify.postMessage env_key e c sid content in
     status (response o) = 200 ->
     exists (text : string) (m : Netlify.Message),
       body (response o) = Netlify.ChatBody text sid /\
       store o !! sid =
         Some (default [] (c !! sid)
               ++ [Netlify.userMessage e sid content; m])%list /\
       Netlify.msg_role m = "assistant" /\
       Netlify.msg_content m = JStr text).
Proof.
  split.
  - intros St IS L env_key fetch st sid content o. subst o.
    destruct (Primary.chatMessageSchema_parse content) as [s |] eqn:Hp;
      [| rewrite primary_post_invalid by assumption; discriminate].
    destruct (Primary.getChatSession st sid) as [ses |] eqn:Hs;
      [| rewrite (primary_post_unknown env_key fetch st sid content s Hp Hs);
         discriminate].
    assert (Hs' : is_Some (Primary.getChatSession st sid)) by eauto.
    assert (Hall : exists text sent,
      Primary.postMessage env_key fetch st sid content =
      Primary.answered (Primary.saved st sid s) sid text text sent).
    { destruct (truthy_str env_key) eqn:Hk.
      - eexists _, _. apply primary_post_answered; assumption.
      - eexists _, _. apply primary_post_silent; assumption. }
    destruct Hall as (text & sent & ->). intros _.
    destruct (primary_answered_reads (Primary.saved st sid s) sid text sent)
      as (m & _ & Hh & _ & Hr & Hc & _).
    destruct (Primary.createMessage_row st (Primary.user sid s))
      as (_ & Hur & Huc).
    exists text, (Primary.createMessage st (Primary.user sid s)).1, m.
    split; [reflexivity |]. split.
    + rewrite Hh. fold (Primary.loaded st sid s).
      rewrite primary_loaded, <- app_assoc. reflexivity.
    + apply primary_parse_spec in Hp as [-> _].
      simpl in Hur, Huc. rewrite Huc. repeat split; assumption.
  - intros env_key e c sid content o. subst o.
    destruct (truthy content) eqn:Hc;
      [| rewrite netlify_post_rejected by assumption; discriminate].
    intros _.
    destruct (Netlify.unconfigured env_key) eqn:Hk.
    + rewrite netlify_post_unconfigured by assumption.
      eexists _, _. split; [reflexivity |]. simpl.
      rewrite lookup_insert_eq. unfold Netlify.pushed.
      rewrite <- app_assoc. repeat split.
    + rewrite netlify_post_configured by assumption.
      eexists _, _. split; [reflexivity |]. simpl.
      rewrite lookup_insert_eq. unfold Netlify.pushed.
      rewrite <- app_assoc. repeat split.
Qed.

Lemma C9_response_is_stored_witness :
  (status (response (Primary.postMessage Sample.key
                       (fun _ => Sample.completion) Sample.db "s2"
                       (JStr "hi"))) = 200 /\
   exists (text : string) (u m : Primary.Message),
     body (response (Primary.postMessage Sample.key
                       (fun _ => Sample.completion) Sample.db "s2"
                       (JStr "hi"))) = Primary.ChatBody text "s2" /\
     Primary.getMessagesBySessionId
       (store (Primary.postMessage Sample.key (fun _ => Sample.completion)
                 Sample.db "s2" (JStr "hi"))) "s2" =
       (Primary.getMessagesBySessionId Sample.db "s2" ++ [u; m])%list /\
     Primary.msg_role u = "user" /\
     JStr "hi" = JStr (Primary.msg_content u) /\
     Primary.msg_role m = "assistant" /\
     Primary.msg_content m = text)
  /\
  (status (response (Netlify.postMessage Sample.key Sample.env0
                       Sample.conversations "s1" (JStr "hi"))) = 200 /\
   exists (text : string) (m : Netlify.Message),
     body (response (Netlify.postMessage Sample.key Sample.env0
                       Sample.conversations "s1" (JStr "hi"))) =
       Netlify.ChatBody text "s1" /\
     store (Netlify.postMessage Sample.key Sample.env0
              Sample.conversations "s1" (JStr "hi")) !! "s1" =
       Some (default [] (Sample.conversations !! "s1")
             ++ [Netlify.userMessage Sample.env0 "s1" (JStr "hi"); m])%list /\
     Netlify.msg_role m = "assistant" /\
     Netlify.msg_content m = JStr text).
Proof.
  split.
  - split; [reflexivity |].
    exact (proj1 C9_response_is_stored Primary.Db Primary.db_storage db_laws
             Sample.key (fun _ => Sample.completion) Sample.db "s2"
             (JStr "hi") eq_refl).
  - split; [reflexivity |].
    exact (proj2 C9_response_is_stored Sample.key Sample.env0
             Sample.conversations "s1" (JStr "hi") eq_refl).
Defined.

(** C10. In the in-memory deployment the listing of the sessions is the
    empty list in every store the process can reach, also right after a
    session was created (and its conversation registered in the map): the
    sessions created there never show in the listing. *)
Theorem C10_netlify_sessions_never_listed :
  forall env_key (c : gmap string (list Netlify.Message)),
    Netlify.reachable env_key c ->
    Netlify.listSessions c =
      mkOutcome (mkResponse 200 (Netlify.SessionsBody [])) c [] /\
    forall e title,
      let created := Netlify.createSession e c title in
      Netlify.reachable env_key (store created) /\
      status (response created) = 200 /\
      (exists s : Netlify.Session,
         body (response created) = Netlify.SessionBody s /\
         store created !! Netlify.ses_id s = Some []) /\
      response (Netlify.listSessions (store created)) =
        mkResponse 200 (Netlify.SessionsBody []).
Proof.
  intros env_key c Hreach. split; [reflexivity |].
  intros e title created. subst created. split.
  - exact (Netlify.reachable_step env_key e c (Netlify.PostSessions title)
             Hreach).
  - split; [reflexivity |]. split; [| reflexivity].
    eexists. split; [reflexivity |]. simpl. apply lookup_insert_eq.
Qed.

Lemma C10_netlify_sessions_never_listed_witness :
  Netlify.reachable Sample.key
    (store (Netlify.createSession Sample.env0 ∅ (JStr "Naruto"))) /\
  response
    (Netlify.listSessions
       (store (Netlify.createSession Sample.env0 ∅ (JStr "Naruto")))) =
  mkResponse 200 (Netlify.SessionsBody []).
Proof.
  assert (Hr : Netlify.reachable Sample.key
                 (store (Netlify.createSession Sample.env0 ∅ (JStr "Naruto")))).
  { exact (Netlify.reachable_step Sample.key Sample.env0 ∅
             (Netlify.PostSessions (JStr "Naruto"))
             (Netlify.reachable_start Sample.key)). }
  split; [exact Hr |].
  exact (f_equal response
           (proj1 (C10_netlify_sessions_never_listed Sample.key _ Hr))).
Defined.

(** ** Further properties of the in-memory deployment *)

Section NetlifyMore.
Import Netlify NetlifyApp.
Implicit Types (c : gmap string (list Message)) (e : Env).

Lemma netlify_key_of (s : string) : PERPLEXITY_API_KEY (Some s) = s.
Proof. destruct s; reflexivity. Qed.

Lemma netlify_unconfigured_length (s : string) :
  unconfigured (Some s) = (js_length s <? 10)%nat.
Proof.
  unfold unconfigured. rewrite netlify_key_of. destruct s; reflexivity.
Qed.


Lemma netlify_post_accepted env_key e c sid content :
  truthy content = true ->
  exists text sent,
    postMessage env_key e c sid content =
    mkOutcome (mkResponse 200 (ChatBody text sid))
      (<[sid := (pushed e c sid content ++ [aiMessage e sid text])%list]> c)
      sent /\
    (sent = [] \/
     unconfigured env_key = false /\
     sent = [request_sent env_key e c sid content]).
Proof.
  intros Hc. destruct (unconfigured env_key) eqn:Hk.
  - eexists _, _. split; [apply netlify_post_unconfigured; assumption |].
    left. reflexivity.
  - eexists _, _. split; [apply netlify_post_configured; assumption |].
    right. split; reflexivity.
Qed.

Lemma message_ok_user e sid content :
  truthy content = true -> message_ok sid (userMessage e sid content) = true.
Proof.
  intros Hc. unfold message_ok. simpl. rewrite String.eqb_refl, Hc. reflexivity.
Qed.

Lemma message_ok_ai e sid text :
  is_empty text = false -> message_ok sid (aiMessage e sid text) = true.
Proof.
  intros Ht. unfold message_ok. simpl. rewrite String.eqb_refl, Ht. reflexivity.
Qed.

Lemma message_ok_greeting e sid : message_ok sid (greetingMessage e sid) = true.
Proof. unfold message_ok. simpl. rewrite String.eqb_refl. reflexivity. Qed.

(** The text of the assistant's turn is never empty: an empty completion
    is replaced, and every fixed text has characters. *)
Lemma netlify_replyText_nonempty (r : fetch_result) :
  is_empty (replyText r) = false.
Proof.
  assert (Herr : forall apiError, is_empty (apiErrorText apiError) = false).
  { intros apiError. unfold apiErrorText.
    destruct (String.eqb _ _); [reflexivity |].
    destruct (from_option _ _ _); reflexivity. }
  destruct r as [apiError | status p]; simpl; [apply Herr |].
  destruct (response_ok status).
  - destruct p as [apiError | | [text |]]; simpl;
      [apply Herr | reflexivity | | reflexivity].
    destruct (is_empty text) eqn:Ht; simpl; [reflexivity | exact Ht].
  - unfold statusText. destruct (status =? 401); [reflexivity |].
    destruct (status =? 429); reflexivity.
Qed.

Lemma well_formed_history c sid :
  well_formed c ->
  Forall (fun m => message_ok sid m = true) (default [] (c !! sid)).
Proof.
  intros Hwf. destruct (c !! sid) as [l |] eqn:Hl; simpl.
  - exact (map_Forall_lookup_1 _ c sid l Hwf Hl).
  - constructor.
Qed.

Lemma well_formed_pushed c e sid content text :
  well_formed c ->
  truthy content = true ->
  is_empty text = false ->
  Forall (fun m => message_ok sid m = true)
         (pushed e c sid content ++ [aiMessage e sid text])%list.
Proof.
  intros Hwf Hc Ht. unfold pushed. rewrite !Forall_app. repeat split.
  - apply well_formed_history, Hwf.
  - repeat constructor. apply message_ok_user, Hc.
  - repeat constructor. apply message_ok_ai, Ht.
Qed.

Lemma well_formed_step env_key e c rq :
  well_formed c -> well_formed (store (handle env_key e c rq)).
Proof.
  intros Hwf. destruct rq as [title | | sid | sid content | sid]; simpl.
  - apply map_Forall_insert_2; [constructor | exact Hwf].
  - exact Hwf.
  - unfold getMessages. destruct (c !! sid) as [[| m l] |]; simpl;
      try exact Hwf;
      (apply map_Forall_insert_2; [| exact Hwf]);
      repeat constructor; apply message_ok_greeting.
  - destruct (truthy content) eqn:Hc;
      [| rewrite netlify_post_rejected by assumption; exact Hwf].
    destruct (unconfigured env_key) eqn:Hk.
    + rewrite netlify_post_unconfigured by assumption. simpl.
      apply map_Forall_insert_2; [| exact Hwf].
      apply well_formed_pushed; [exact Hwf | exact Hc | reflexivity].
    + rewrite netlify_post_configured by assumption. simpl.
      apply map_Forall_insert_2; [| exact Hwf].
      apply well_formed_pushed;
        [exact Hwf | exact Hc | apply netlify_replyText_nonempty].
  - apply map_Forall_delete, Hwf.
Qed.

Lemma message_ok_spec sid m :
  message_ok sid m = true ->
  msg_sessionId m = sid /\
  (msg_role m = "user" \/ msg_role m = "assistant") /\
  truthy (msg_content m) = true.
Proof.
  unfold message_ok. rewrite !andb_true_iff, orb_true_iff.
  rewrite !String.eqb_eq. tauto.
Qed.

End NetlifyMore.

(** X1. The in-memory post checks the content by truthiness only: every
    falsy value (missing, null, false, 0, the empty string) is answered
    400 with the store untouched and nothing sent upstream, and every
    truthy value, a string or not, is answered 200 and stored as it is in
    the user turn.  No other status is ever answered. *)
Theorem X1_netlify_post_validation :
  forall env_key e (c : gmap string (list Netlify.Message)) sid content,
    let o := Netlify.postMessage env_key e c sid content in
    (truthy content = false ->
     o = mkOutcome
           (mkResponse 400 (Netlify.ErrorBody "Message content is required"))
           c []) /\
    (truthy content = true ->
     exists text : string,
       response o = mkResponse 200 (Netlify.ChatBody text sid) /\
       store o !! sid =
         Some (default [] (c !! sid)
               ++ [Netlify.userMessage e sid content;
                   Netlify.aiMessage e sid text])%list /\
       Netlify.msg_content (Netlify.userMessage e sid content) = content) /\
    (status (response o) = 400 <-> truthy content = false) /\
    (status (response o) = 200 <-> truthy content = true).
Proof.
  intros env_key e c sid content o. subst o.
  destruct (truthy content) eqn:Hc.
  - destruct (netlify_post_accepted env_key e c sid content Hc)
      as (text & sent & -> & _). simpl.
    split; [discriminate |]. split.
    + intros _. exists text. split; [reflexivity |].
      rewrite lookup_insert_eq. unfold Netlify.pushed.
      rewrite <- app_assoc. split; reflexivity.
    + split; split; intros; congruence.
  - rewrite netlify_post_rejected by assumption. simpl.
    split; [reflexivity |]. split; [discriminate |].
    split; split; intros; congruence.
Qed.

Lemma X1_netlify_post_validation_witness :
  (truthy (JNum 0) = false /\
   Netlify.postMessage Sample.key Sample.env0 Sample.conversations "s1"
     (JNum 0) =
   mkOutcome
     (mkResponse 400 (Netlify.ErrorBody "Message content is required"))
     Sample.conversations [])
  /\
  (truthy (JNum 7) = true /\
   exists text : string,
     response (Netlify.postMessage Sample.key Sample.env0
                 Sample.conversations "s1" (JNum 7)) =
       mkResponse 200 (Netlify.ChatBody text "s1") /\
     store (Netlify.postMessage Sample.key Sample.env0
              Sample.conversations "s1" (JNum 7)) !! "s1" =
       Some (default [] (Sample.conversations !! "s1")
             ++ [Netlify.userMessage Sample.env0 "s1" (JNum 7);
                 Netlify.aiMessage Sample.env0 "s1" text])%list /\
     Netlify.msg_content (Netlify.userMessage Sample.env0 "s1" (JNum 7)) =
       JNum 7).
Proof.
  split.
  - split; [reflexivity |].
    exact (proj1 (X1_netlify_post_validation Sample.key Sample.env0
                    Sample.conversations "s1" (JNum 0)) eq_refl).
  - split; [reflexivity |].
    exact (proj1 (proj2 (X1_netlify_post_validation Sample.key Sample.env0
                           Sample.conversations "s1" (JNum 7))) eq_refl).
Defined.

(** X2. In the in-memory deployment a key shorter than 10 characters
    ([PERPLEXITY_API_KEY.length], counted in UTF-16 code units, not in
    bytes) counts as not configured: a valid post then sends nothing
    upstream and gets the not-configured text.  With a key of 10 units or
    more exactly one request goes to the completion URL, carrying the key
    as bearer token. *)
Theorem X2_netlify_key_length :
  forall (key : string) e (c : gmap string (list Netlify.Message)) sid content,
    truthy content = true ->
    let o := Netlify.postMessage (Some key) e c sid content in
    ((js_length key < 10)%nat ->
     calls o = [] /\
     response o =
       mkResponse 200 (Netlify.ChatBody Netlify.not_configured_text sid)) /\
    ((10 <= js_length key)%nat ->
     exists rq : Netlify.FetchRequest,
       calls o = [rq] /\
       Netlify.rq_url rq = completions_url /\
       Netlify.rq_authorization rq = "Bearer " +:+ key).
Proof.
  intros key e c sid content Hc o. subst o. split.
  - intros Hlen.
    rewrite netlify_post_unconfigured; [split; reflexivity | exact Hc |].
    rewrite netlify_unconfigured_length. apply Nat.ltb_lt, Hlen.
  - intros Hlen.
    rewrite netlify_post_configured; [| exact Hc |].
    + eexists. split; [reflexivity |]. split; [reflexivity |]. simpl.
      rewrite netlify_key_of. reflexivity.
    + rewrite netlify_unconfigured_length. apply Nat.ltb_ge, Hlen.
Qed.

Lemma X2_netlify_key_length_witness :
  truthy (JStr "hi") = true /\
  String.length Sample2.accented_key = 10%nat /\
  js_length Sample2.accented_key = 5%nat /\
  (js_length Sample2.accented_key < 10)%nat /\
  (10 <= js_length "pplx-0123456789abcdef")%nat /\
  calls (Netlify.postMessage (Some Sample2.accented_key) Sample.env0
           Sample.conversations "s1" (JStr "hi")) = [] /\
  response (Netlify.postMessage (Some Sample2.accented_key) Sample.env0
              Sample.conversations "s1" (JStr "hi")) =
    mkResponse 200 (Netlify.ChatBody Netlify.not_configured_text "s1") /\
  exists rq : Netlify.FetchRequest,
    calls (Netlify.postMessage (Some "pplx-0123456789abcdef") Sample.env0
             Sample.conversations "s1" (JStr "hi")) = [rq] /\
    Netlify.rq_url rq = completions_url /\
    Netlify.rq_authorization rq = "Bearer " +:+ "pplx-0123456789abcdef".
Proof.
  assert (H1 : (js_length Sample2.accented_key < 10)%nat)
    by (vm_compute; lia).
  assert (H2 : (10 <= js_length "pplx-0123456789abcdef")%nat)
    by (vm_compute; lia).
  split; [reflexivity |]. split; [reflexivity |]. split; [reflexivity |].
  split; [exact H1 |]. split; [exact H2 |].
  destruct (proj1 (X2_netlify_key_length Sample2.accented_key Sample.env0
                     Sample.conversations "s1" (JStr "hi") eq_refl) H1)
    as [Hc Hr].
  split; [exact Hc |]. split; [exact Hr |].
  exact (proj2 (X2_netlify_key_length "pplx-0123456789abcdef" Sample.env0
                  Sample.conversations "s1" (JStr "hi") eq_refl) H2).
Defined.



Lemma slice_last_snoc {A : Type} (n : nat) (l : list A) (x : A) :
  slice_last (Datatypes.S n) (l ++ [x]) = (slice_last n l ++ [x])%list.
Proof.
  unfold slice_last. rewrite length_app. simpl.
  replace (length l + 1 - Datatypes.S n)%nat with (length l - n)%nat by lia.
  apply drop_app_le. lia.
Qed.

(** X4. A request makes at most one call to the upstream API, and only a
    post does.  In the in-memory deployment a request calls upstream
    exactly when it is a post with truthy content under a configured key,
    and then it sends the one request built from the pushed history; every
    other request calls nothing.  In the primary deployment a post calls
    upstream exactly when its content is valid, its session exists and the
    key is set, and reading messages or deleting a session never does. *)
Theorem X4_upstream_calls :
  (forall env_key e (c : gmap string (list Netlify.Message)) rq,
     calls (Netlify.handle env_key e c rq) =
       match rq with
       | Netlify.PostMessages sid content =>
           if truthy content && negb (Netlify.unconfigured env_key)
           then [Netlify.request_sent env_key e c sid content]
           else []
       | _ => []
       end /\
     (length (calls (Netlify.handle env_key e c rq)) <= 1)%nat)
  /\
  (forall (St : Type) (IS : Primary.IStorage St) env_key fetch (st : St)
          sid content,
     calls (Primary.getMessages st sid) = [] /\
     calls (Primary.deleteSession st sid) = [] /\
     calls (Primary.postMessage env_key fetch st sid content) =
       match Primary.chatMessageSchema_parse content,
             Primary.getChatSession st sid with
       | Some s, Some _ =>
           if truthy_str env_key
           then [Primary.request_sent env_key st sid s]
           else []
       | _, _ => []
       end /\
     (length (calls (Primary.postMessage env_key fetch st sid content)) <= 1)%nat).
Proof.
  split.
  - intros env_key e c rq.
    assert (Heq : calls (Netlify.handle env_key e c rq) =
       match rq with
       | Netlify.PostMessages sid content =>
           if truthy content && negb (Netlify.unconfigured env_key)
           then [Netlify.request_sent env_key e c sid content]
           else []
       | _ => []
       end).
    { destruct rq as [title | | sid | sid content | sid]; simpl;
        try reflexivity.
      - unfold Netlify.getMessages.
        destruct (c !! sid) as [[| m l] |]; reflexivity.
      - destruct (truthy content) eqn:Hc;
          [| rewrite netlify_post_rejected by assumption; reflexivity].
        destruct (Netlify.unconfigured env_key) eqn:Hk; simpl.
        + rewrite netlify_post_unconfigured by assumption. reflexivity.
        + rewrite netlify_post_configured by assumption. reflexivity. }
    split; [exact Heq |]. rewrite Heq.
    destruct rq as [title | | sid | sid content | sid]; simpl; try lia.
    destruct (truthy content && negb (Netlify.unconfigured env_key));
      simpl; lia.
  - intros St IS env_key fetch st sid content.
    assert (Heq : calls (Primary.postMessage env_key fetch st sid content) =
       match Primary.chatMessageSchema_parse content,
             Primary.getChatSession st sid with
       | Some s, Some _ =>
           if truthy_str env_key
           then [Primary.request_sent env_key st sid s]
           else []
       | _, _ => []
       end).
    { destruct (Primary.chatMessageSchema_parse content) as [s |] eqn:Hp;
        [| rewrite primary_post_invalid by assumption; reflexivity].
      destruct (Primary.getChatSession st sid) as [ses |] eqn:Hs;
        [| rewrite (primary_post_unknown env_key fetch st sid content s Hp Hs);
           reflexivity].
      assert (Hs' : is_Some (Primary.getChatSession st sid)) by eauto.
      destruct (truthy_str env_key) eqn:Hk.
      - rewrite (primary_post_configured env_key fetch st sid content s
                   Hp Hs' Hk).
        destruct (Primary.reply _); reflexivity.
      - rewrite (primary_post_unconfigured env_key fetch st sid content s
                   Hp Hs' Hk).
        reflexivity. }
    split; [| split; [| split; [exact Heq |]]].
    + unfold Primary.getMessages.
      destruct (Primary.getChatSession st sid); reflexivity.
    + unfold Primary.deleteSession.
      destruct (Primary.getChatSession st sid); reflexivity.
    + rewrite Heq.
      destruct (Primary.chatMessageSchema_parse content); simpl; [| lia].
      destruct (Primary.getChatSession st sid); simpl; [| lia].
      destruct (truthy_str env_key); simpl; lia.
Qed.

Lemma X4_upstream_calls_witness :
  calls (Netlify.handle Sample.key Sample.env0 Sample.conversations
           (Netlify.PostMessages "s1" (JStr "hi"))) =
    [Netlify.request_sent Sample.key Sample.env0 Sample.conversations "s1"
       (JStr "hi")] /\
  calls (Netlify.handle None Sample.env0 Sample.conversations
           (Netlify.PostMessages "s1" (JStr "hi"))) = [] /\
  calls (Netlify.handle Sample.key Sample.env0 Sample.conversations
           (Netlify.GetMessages "s1")) = [] /\
  calls (Primary.postMessage Sample.key (fun _ => Sample.completion)
           Sample.db "s2" (JStr "hi")) =
    [Primary.request_sent Sample.key Sample.db "s2" "hi"] /\
  calls (Primary.postMessage Sample.key (fun _ => Sample.completion)
           Sample.db "nope" (JStr "hi")) = [].
Proof.
  destruct X4_upstream_calls as [Hn Hp].
  split; [exact (proj1 (Hn Sample.key Sample.env0 Sample.conversations
                          (Netlify.PostMessages "s1" (JStr "hi")))) |].
  split; [exact (proj1 (Hn None Sample.env0 Sample.conversations
                          (Netlify.PostMessages "s1" (JStr "hi")))) |].
  split; [exact (proj1 (Hn Sample.key Sample.env0 Sample.conversations
                          (Netlify.GetMessages "s1"))) |].
  split.
  - exact (proj1 (proj2 (proj2 (Hp Primary.Db Primary.db_storage Sample.key
                                  (fun _ => Sample.completion) Sample.db "s2"
                                  (JStr "hi"))))).
  - exact (proj1 (proj2 (proj2 (Hp Primary.Db Primary.db_storage Sample.key
                                  (fun _ => Sample.completion) Sample.db "nope"
                                  (JStr "hi"))))).
Defined.

(** X5. A request of the in-memory deployment changes the conversation of
    one session id at most: creating a session touches only the new id,
    reading, posting to and deleting a session touch only that session,
    and listing touches nothing.  Every other conversation is as before. *)
Theorem X5_netlify_other_sessions :
  forall env_key e (c : gmap string (list Netlify.Message)) rq (sid' : string),
    match rq with
    | Netlify.PostSessions _ => sid' <> Netlify.randomUUID e 0
    | Netlify.GetSessions => True
    | Netlify.GetMessages sid
    | Netlify.PostMessages sid _
    | Netlify.DeleteSessions sid => sid' <> sid
    end ->
    store (Netlify.handle env_key e c rq) !! sid' = c !! sid'.
Proof.
  intros env_key e c rq sid' Hne.
  destruct rq as [title | | sid | sid content | sid]; simpl.
  - apply lookup_insert_ne. congruence.
  - reflexivity.
  - unfold Netlify.getMessages.
    destruct (c !! sid) as [[| m l] |]; simpl; try reflexivity;
      apply lookup_insert_ne; congruence.
  - destruct (truthy content) eqn:Hc.
    + destruct (netlify_post_accepted env_key e c sid content Hc)
        as (text & sent & -> & _). simpl.
      apply lookup_insert_ne. congruence.
    + rewrite netlify_post_rejected by assumption. reflexivity.
  - apply lookup_delete_ne. congruence.
Qed.

Lemma X5_netlify_other_sessions_witness :
  "s1" <> "s7" /\
  store (Netlify.handle Sample.key Sample.env0 Sample.conversations
           (Netlify.PostMessages "s7" (JStr "hi"))) !! "s1" =
  Sample.conversations !! "s1".
Proof.
  assert (H : "s1" <> "s7") by discriminate.
  split; [exact H |].
  exact (X5_netlify_other_sessions Sample.key Sample.env0 Sample.conversations
           (Netlify.PostMessages "s7" (JStr "hi")) "s1" H).
Defined.

(** X6. In every store the in-memory process can reach, each message kept
    under a session id names that session, its role is user or assistant,
    and its content is truthy: a post with falsy content is refused, and
    what is stored as the assistant's turn is a fixed text or a completion
    that passed the emptiness check. *)
Theorem X6_netlify_well_formed :
  forall env_key (c : gmap string (list Netlify.Message)),
    Netlify.reachable env_key c ->
    NetlifyApp.well_formed c /\
    forall sid l m,
      c !! sid = Some l ->
      m ∈ l ->
      Netlify.msg_sessionId m = sid /\
      (Netlify.msg_role m = "user" \/ Netlify.msg_role m = "assistant") /\
      truthy (Netlify.msg_content m) = true.
Proof.
  intros env_key c Hreach.
  assert (Hwf : NetlifyApp.well_formed c).
  { induction Hreach as [| e c rq _ IH].
    - apply map_Forall_empty.
    - apply well_formed_step, IH. }
  split; [exact Hwf |].
  intros sid l m Hl Hm. apply message_ok_spec.
  pose proof (map_Forall_lookup_1 _ c sid l Hwf Hl) as Hall.
  rewrite Forall_forall in Hall. apply Hall, Hm.
Qed.

Lemma X6_netlify_well_formed_witness :
  Netlify.reachable Sample.key
    (store (Netlify.handle Sample.key
              (Sample.env (FetchResponse 200 (PayloadContent (Some EmptyString))))
              ∅ (Netlify.PostMessages "s1" (JNum 7)))) /\
  store (Netlify.handle Sample.key
           (Sample.env (FetchResponse 200 (PayloadContent (Some EmptyString))))
           ∅ (Netlify.PostMessages "s1" (JNum 7))) !! "s1" =
    Some [ Netlify.userMessage Sample.env0 "s1" (JNum 7);
           Netlify.aiMessage Sample.env0 "s1" Netlify.empty_response_text ] /\
  NetlifyApp.well_formed
    (store (Netlify.handle Sample.key
              (Sample.env (FetchResponse 200 (PayloadContent (Some EmptyString))))
              ∅ (Netlify.PostMessages "s1" (JNum 7)))).
Proof.
  assert (Hr : Netlify.reachable Sample.key
                 (store (Netlify.handle Sample.key
                           (Sample.env (FetchResponse 200
                                          (PayloadContent (Some EmptyString))))
                           ∅ (Netlify.PostMessages "s1" (JNum 7))))).
  { exact (Netlify.reachable_step Sample.key _ ∅
             (Netlify.PostMessages "s1" (JNum 7))
             (Netlify.reachable_start Sample.key)). }
  split; [exact Hr |]. split; [reflexivity |].
  exact (proj1 (X6_netlify_well_formed Sample.key _ Hr)).
Defined.

(** X7. In the in-memory deployment the greeting depends on the order of
    the first requests to a new session.  Posting before the first read
    leaves the history without greeting: a later read returns the user
    turn and the reply only.  Reading first stores the greeting, so after
    the post the history is greeting, user turn, reply, and the request
    sent upstream carries the greeting as an assistant message between the
    system prompt and the user turn. *)
Theorem X7_netlify_greeting_order :
  forall env_key e0 e1 e2 e3 (c : gmap string (list Netlify.Message))
         title content,
    truthy content = true ->
    let sid := Netlify.randomUUID e0 0 in
    let c0 := store (Netlify.createSession e0 c title) in
    let posted := Netlify.postMessage env_key e1 c0 sid content in
    let read := Netlify.getMessages e1 c0 sid in
    let posted' := Netlify.postMessage env_key e2 (store read) sid content in
    (exists text : string,
       body (response posted) = Netlify.ChatBody text sid /\
       body (response (Netlify.getMessages e2 (store posted) sid)) =
         Netlify.MessagesBody
           [ Netlify.userMessage e1 sid content;
             Netlify.aiMessage e1 sid text ]) /\
    (exists text : string,
       body (response posted') = Netlify.ChatBody text sid /\
       body (response (Netlify.getMessages e3 (store posted') sid)) =
         Netlify.MessagesBody
           [ Netlify.greetingMessage e1 sid;
             Netlify.userMessage e2 sid content;
             Netlify.aiMessage e2 sid text ]) /\
    (Netlify.unconfigured env_key = false ->
     exists rq : Netlify.FetchRequest,
       calls posted' = [rq] /\
       Netlify.rq_messages rq =
         [ Netlify.mkPM "system" (JStr system_prompt);
           Netlify.mkPM "assistant" (JStr Netlify.greeting);
           Netlify.mkPM "user" content ]).
Proof.
  intros env_key e0 e1 e2 e3 c title content Hc sid c0 posted read posted'.
  assert (H0 : c0 !! sid = Some []) by apply lookup_insert_eq.
  assert (Hread : store read !! sid = Some [Netlify.greetingMessage e1 sid]).
  { subst read. rewrite netlify_getMessages_seed by (right; exact H0).
    apply lookup_insert_eq. }
  split; [| split].
  - subst posted.
    destruct (netlify_post_accepted env_key e1 c0 sid content Hc)
      as (text & sent & -> & _).
    exists text. split; [reflexivity |]. simpl.
    erewrite netlify_getMessages_stored; [reflexivity |].
    rewrite lookup_insert_eq. unfold Netlify.pushed. rewrite H0. reflexivity.
  - subst posted'.
    destruct (netlify_post_accepted env_key e2 (store read) sid content Hc)
      as (text & sent & -> & _).
    exists text. split; [reflexivity |]. simpl.
    erewrite netlify_getMessages_stored; [reflexivity |].
    rewrite lookup_insert_eq. unfold Netlify.pushed. rewrite Hread.
    reflexivity.
  - intros Hk. subst posted'.
    rewrite netlify_post_configured by assumption.
    eexists. split; [reflexivity |]. simpl.
    unfold Netlify.perplexityMessages, Netlify.pushed. rewrite Hread.
    reflexivity.
Qed.

Lemma X7_netlify_greeting_order_witness :
  truthy (JStr "hi") = true /\
  Netlify.unconfigured Sample.key = false /\
  exists rq : Netlify.FetchRequest,
    calls (Netlify.postMessage Sample.key Sample.env0
             (store (Netlify.getMessages Sample.env0
                       (store (Netlify.createSession Sample.env0 ∅ JUndefined))
                       (Netlify.randomUUID Sample.env0 0)))
             (Netlify.randomUUID Sample.env0 0) (JStr "hi")) = [rq] /\
    Netlify.rq_messages rq =
      [ Netlify.mkPM "system" (JStr system_prompt);
        Netlify.mkPM "assistant" (JStr Netlify.greeting);
        Netlify.mkPM "user" (JStr "hi") ].
Proof.
  split; [reflexivity |]. split; [reflexivity |].
  exact (proj2 (proj2 (X7_netlify_greeting_order Sample.key Sample.env0
                         Sample.env0 Sample.env0 Sample.env0 ∅ JUndefined
                         (JStr "hi") eq_refl)) eq_refl).
Defined.

(** X8. Deleting a session of the in-memory deployment forgets its
    context: a post to the same id afterwards starts a new conversation
    that holds the user turn and the reply only, and the request sent
    upstream carries the system prompt and that user turn and nothing of
    the old history. *)
Theorem X8_netlify_delete_forgets :
  forall env_key e (c : gmap string (list Netlify.Message)) sid content,
    truthy content = true ->
    let o := Netlify.postMessage env_key e
               (store (Netlify.deleteSession c sid)) sid content in
    (exists text : string,
       response o = mkResponse 200 (Netlify.ChatBody text sid) /\
       store o !! sid =
         Some [ Netlify.userMessage e sid content;
                Netlify.aiMessage e sid text ]) /\
    (Netlify.unconfigured env_key = false ->
     exists rq : Netlify.FetchRequest,
       calls o = [rq] /\
       Netlify.rq_messages rq =
         [ Netlify.mkPM "system" (JStr system_prompt);
           Netlify.mkPM "user" content ]).
Proof.
  intros env_key e c sid content Hc o. subst o. simpl.
  assert (Hgone : delete sid c !! sid = None) by apply lookup_delete_eq.
  split.
  - destruct (netlify_post_accepted env_key e (delete sid c) sid content Hc)
      as (text & sent & -> & _).
    exists text. split; [reflexivity |]. simpl.
    rewrite lookup_insert_eq. unfold Netlify.pushed. rewrite Hgone.
    reflexivity.
  - intros Hk. rewrite netlify_post_configured by assumption.
    eexists. split; [reflexivity |]. simpl.
    unfold Netlify.perplexityMessages, Netlify.pushed. rewrite Hgone.
    reflexivity.
Qed.

Lemma X8_netlify_delete_forgets_witness :
  truthy (JStr "again") = true /\
  Netlify.unconfigured Sample.key = false /\
  length (default [] (Sample.long_conversations !! "s1")) = 12%nat /\
  exists rq : Netlify.FetchRequest,
    calls (Netlify.postMessage Sample.key Sample.env0
             (store (Netlify.deleteSession Sample.long_conversations "s1"))
             "s1" (JStr "again")) = [rq] /\
    Netlify.rq_messages rq =
      [ Netlify.mkPM "system" (JStr system_prompt);
        Netlify.mkPM "user" (JStr "again") ].
Proof.
  split; [reflexivity |]. split; [reflexivity |]. split; [reflexivity |].
  exact (proj2 (X8_netlify_delete_forgets Sample.key Sample.env0
                  Sample.long_conversations "s1" (JStr "again") eq_refl)
           eq_refl).
Defined.

(** X9. In the in-memory deployment the window never cuts the message just
    posted: the request sent upstream has between 2 and 9 messages, the
    first is the system prompt and the last is the new user turn with the
    posted content. *)
Theorem X9_netlify_newest_in_window :
  forall env_key e (c : gmap string (list Netlify.Message)) sid content,
    truthy content = true ->
    Netlify.unconfigured env_key = false ->
    exists rq : Netlify.FetchRequest,
      calls (Netlify.postMessage env_key e c sid content) = [rq] /\
      head (Netlify.rq_messages rq) =
        Some (Netlify.mkPM "system" (JStr system_prompt)) /\
      last (Netlify.rq_messages rq) = Some (Netlify.mkPM "user" content) /\
      (2 <= length (Netlify.rq_messages rq) <= 9)%nat.
Proof.
  intros env_key e c sid content Hc Hk.
  rewrite netlify_post_configured by assumption.
  eexists. split; [reflexivity |]. simpl.
  unfold Netlify.perplexityMessages, Netlify.pushed.
  rewrite (slice_last_snoc 7). split; [reflexivity |]. split.
  - rewrite map_app. simpl.
    change (?x :: ?l ++ ?k)%list with ((x :: l) ++ k)%list.
    apply last_snoc.
  - simpl. rewrite length_map, length_app, slice_last_length. simpl. lia.
Qed.

Lemma X9_netlify_newest_in_window_witness :
  truthy (JStr "more") = true /\
  Netlify.unconfigured Sample.key = false /\
  exists rq : Netlify.FetchRequest,
    calls (Netlify.postMessage Sample.key Sample.env0
             Sample.long_conversations "s1" (JStr "more")) = [rq] /\
    head (Netlify.rq_messages rq) =
      Some (Netlify.mkPM "system" (JStr system_prompt)) /\
    last (Netlify.rq_messages rq) = Some (Netlify.mkPM "user" (JStr "more")) /\
    (2 <= length (Netlify.rq_messages rq) <= 9)%nat.
Proof.
  split; [reflexivity |]. split; [reflexivity |].
  exact (X9_netlify_newest_in_window Sample.key Sample.env0
           Sample.long_conversations "s1" (JStr "more") eq_refl eq_refl).
Defined.

(** X10. In the primary deployment, with a storage that returns the saved
    user message at the end of the history of its session, the window
    never cuts the message just posted: the request sent upstream has
    between 2 and 11 messages, the first is the system prompt and the last
    is the new user turn with the posted content. *)
Theorem X10_primary_newest_in_window :
  forall (St : Type) (IS : Primary.IStorage St) (L : Primary.StorageLaws St)
         env_key fetch (st : St) sid content s,
    Primary.chatMessageSchema_parse content = Some s ->
    is_Some (Primary.getChatSession st sid) ->
    truthy_str env_key = true ->
    exists rq : Primary.FetchRequest,
      calls (Primary.postMessage env_key fetch st sid content) = [rq] /\
      head (Primary.rq_messages rq) = Some (Primary.mkPM "system" system_prompt) /\
      last (Primary.rq_messages rq) = Some (Primary.mkPM "user" s) /\
      (2 <= length (Primary.rq_messages rq) <= 11)%nat.
Proof.
  intros St IS L env_key fetch st sid content s Hp Hs Hk.
  exists (Primary.request_sent env_key st sid s). split.
  - rewrite (primary_post_configured env_key fetch st sid content s Hp Hs Hk).
    destruct (Primary.reply _); reflexivity.
  - simpl. unfold Primary.perplexityMessages.
    rewrite primary_loaded, (slice_last_snoc 9).
    split; [reflexivity |]. split.
    + rewrite map_app. simpl.
      change (?x :: ?l ++ ?k)%list with ((x :: l) ++ k)%list.
      rewrite last_snoc. unfold Primary.toPerplexity.
      destruct (Primary.createMessage_row st (Primary.user sid s))
        as (_ & Hr & Hc).
      rewrite Hr, Hc. reflexivity.
    + simpl. rewrite length_map, length_app, slice_last_length. simpl. lia.
Qed.

Lemma X10_primary_newest_in_window_witness :
  Primary.chatMessageSchema_parse (JStr "more") = Some "more" /\
  is_Some (Primary.getChatSession Sample.db "s2") /\
  truthy_str Sample.key = true /\
  exists rq : Primary.FetchRequest,
    calls (Primary.postMessage Sample.key (fun _ => Sample.completion)
             Sample.db "s2" (JStr "more")) = [rq] /\
    head (Primary.rq_messages rq) = Some (Primary.mkPM "system" system_prompt) /\
    last (Primary.rq_messages rq) = Some (Primary.mkPM "user" "more") /\
    (2 <= length (Primary.rq_messages rq) <= 11)%nat.
Proof.
  assert (Hs : is_Some (Primary.getChatSession Sample.db "s2"))
    by (eexists; reflexivity).
  split; [reflexivity |]. split; [exact Hs |]. split; [reflexivity |].
  exact (X10_primary_newest_in_window Primary.Db Primary.db_storage db_laws
           Sample.key (fun _ => Sample.completion) Sample.db "s2"
           (JStr "more") "more" eq_refl Hs eq_refl).
Defined.

(** X11. The status of a post in the primary deployment is decided by the
    content first and the session second, never by the upstream: 500
    exactly when the content is not a non-empty string (also when the
    session does not exist), 404 exactly when the content is valid and the
    session is absent, and 200 exactly when the content is valid and the
    session exists, whatever the upstream call does.  An answer other than
    200 leaves the store as it was and sends nothing upstream. *)
Theorem X11_primary_post_status :
  forall (St : Type) (IS : Primary.IStorage St) env_key fetch (st : St)
         sid content,
    let o := Primary.postMessage env_key fetch st sid content in
    (status (response o) = 500 <->
     Primary.chatMessageSchema_parse content = None) /\
    (status (response o) = 404 <->
     is_Some (Primary.chatMessageSchema_parse content) /\
     Primary.getChatSession st sid = None) /\
    (status (response o) = 200 <->
     is_Some (Primary.chatMessageSchema_parse content) /\
     is_Some (Primary.getChatSession st sid)) /\
    (status (response o) <> 200 -> store o = st /\ calls o = []).
Proof.
  intros St IS env_key fetch st sid content o. subst o.
  pose proof (@is_Some_None string) as Hn1.
  pose proof (@is_Some_None Primary.ChatSession) as Hn2.
  destruct (Primary.chatMessageSchema_parse content) as [s |] eqn:Hp.
  - destruct (Primary.getChatSession st sid) as [ses |] eqn:Hs.
    + assert (Hs' : is_Some (Primary.getChatSession st sid)) by eauto.
      assert (H200 : status (response
                (Primary.postMessage env_key fetch st sid content)) = 200).
      { destruct (truthy_str env_key) eqn:Hk.
        - rewrite (primary_post_configured env_key fetch st sid content s
                     Hp Hs' Hk).
          destruct (Primary.reply _); reflexivity.
        - rewrite (primary_post_unconfigured env_key fetch st sid content s
                     Hp Hs' Hk).
          reflexivity. }
      rewrite H200.
      split; [split; discriminate |].
      split; [split; [discriminate | intros [_ Hx]; discriminate] |].
      split; [split; [eauto | reflexivity] |].
      intros Hne. contradiction.
    + rewrite (primary_post_unknown env_key fetch st sid content s Hp Hs).
      simpl.
      split; [split; discriminate |].
      split; [split; [eauto | reflexivity] |].
      split; [split; [discriminate | intros [_ Hx]; contradiction] |].
      intros _. split; reflexivity.
  - rewrite primary_post_invalid by assumption. simpl.
    split; [split; reflexivity |].
    split; [split; [discriminate | intros [Hx _]; contradiction] |].
    split; [split; [discriminate | intros [Hx _]; contradiction] |].
    intros _. split; reflexivity.
Qed.

Lemma X11_primary_post_status_witness :
  status (response (Primary.postMessage Sample.key (fun _ => Sample.aborted)
                      Sample.db "nope" (JNum 7))) = 500 /\
  status (response (Primary.postMessage Sample.key (fun _ => Sample.aborted)
                      Sample.db "nope" (JNum 7))) <> 200 /\
  store (Primary.postMessage Sample.key (fun _ => Sample.aborted)
           Sample.db "nope" (JNum 7)) = Sample.db /\
  calls (Primary.postMessage Sample.key (fun _ => Sample.aborted)
           Sample.db "nope" (JNum 7)) = [].
Proof.
  assert (H : status (response
                (Primary.postMessage Sample.key (fun _ => Sample.aborted)
                   Sample.db "nope" (JNum 7))) <> 200)
    by (vm_compute; discriminate).
  split; [reflexivity |]. split; [exact H |].
  exact (proj2 (proj2 (proj2 (X11_primary_post_status Primary.Db
                                Primary.db_storage Sample.key
                                (fun _ => Sample.aborted) Sample.db "nope"
                                (JNum 7)))) H).
Defined.

(** X12. When the upstream answers a valid post with a 2xx status and a
    non-empty completion text, that text is the assistant's turn: it is
    what the answer carries and what is handed to the store, after exactly
    one upstream call, in both deployments. *)
Theorem X12_completion_text :
  (forall (St : Type) (IS : Primary.IStorage St) env_key fetch (st : St)
          sid content s status text,
     Primary.chatMessageSchema_parse content = Some s ->
     is_Some (Primary.getChatSession st sid) ->
     truthy_str env_key = true ->
     fetch (Primary.request_sent env_key st sid s) =
       FetchResponse status (PayloadContent (Some text)) ->
     response_ok status = true ->
     text <> EmptyString ->
     let o := Primary.postMessage env_key fetch st sid content in
     response o = mkResponse 200 (Primary.ChatBody text sid) /\
     store o =
       (Primary.createMessage (Primary.saved st sid s)
          (Primary.assistant sid text)).2 /\
     calls o = [Primary.request_sent env_key st sid s])
  /\
  (forall env_key e (c : gmap string (list Netlify.Message)) sid content
          status text,
     truthy content = true ->
     Netlify.unconfigured env_key = false ->
     Netlify.fetch e (Netlify.request_sent env_key e c sid content) =
       FetchResponse status (PayloadContent (Some text)) ->
     response_ok status = true ->
     text <> EmptyString ->
     let o := Netlify.postMessage env_key e c sid content in
     response o = mkResponse 200 (Netlify.ChatBody text sid) /\
     store o =
       <[sid := (Netlify.pushed e c sid content
                 ++ [Netlify.aiMessage e sid text])%list]> c /\
     calls o = [Netlify.request_sent env_key e c sid content]).
Proof.
  split.
  - intros St IS env_key fetch st sid content s status text
           Hp Hs Hk Hf Hok Hne. simpl.
    rewrite (primary_post_configured env_key fetch st sid content s Hp Hs Hk).
    rewrite Hf. unfold Primary.reply. rewrite Hok.
    destruct text as [| a text]; [contradiction |]. simpl.
    repeat split.
  - intros env_key e c sid content status text Hc Hk Hf Hok Hne. simpl.
    rewrite netlify_post_configured by assumption.
    rewrite Hf. unfold Netlify.replyText. rewrite Hok.
    destruct text as [| a text]; [contradiction |]. simpl.
    repeat split.
Qed.

Lemma X12_completion_text_witness :
  (Primary.chatMessageSchema_parse (JStr "hi") = Some "hi" /\
   is_Some (Primary.getChatSession Sample.db "s2") /\
   truthy_str Sample.key = true /\
   response_ok 200 = true /\
   "Try Mushishi." <> EmptyString /\
   response (Primary.postMessage Sample.key (fun _ => Sample.completion)
               Sample.db "s2" (JStr "hi")) =
     mkResponse 200 (Primary.ChatBody "Try Mushishi." "s2"))
  /\
  (truthy (JStr "hi") = true /\
   Netlify.unconfigured Sample.key = false /\
   response (Netlify.postMessage Sample.key Sample.env0 Sample.conversations
               "s1" (JStr "hi")) =
     mkResponse 200 (Netlify.ChatBody "Try Mushishi." "s1")).
Proof.
  assert (Hs : is_Some (Primary.getChatSession Sample.db "s2"))
    by (eexists; reflexivity).
  assert (Hne : "Try Mushishi." <> EmptyString) by discriminate.
  split.
  - split; [reflexivity |]. split; [exact Hs |]. split; [reflexivity |].
    split; [reflexivity |]. split; [exact Hne |].
    exact (proj1 (proj1 X12_completion_text Primary.Db Primary.db_storage
                    Sample.key (fun _ => Sample.completion) Sample.db "s2"
                    (JStr "hi") "hi" 200 "Try Mushishi."
                    eq_refl Hs eq_refl eq_refl eq_refl Hne)).
  - split; [reflexivity |]. split; [reflexivity |].
    exact (proj1 (proj2 X12_completion_text Sample.key Sample.env0
                    Sample.conversations "s1" (JStr "hi") 200 "Try Mushishi."
                    eq_refl eq_refl eq_refl eq_refl Hne)).
Defined.

(** X13. A 2xx answer without completion text becomes a fixed assistant
    turn, stored and sent back with status 200.  When the first choice has
    no text or an empty one, the primary deployment says "invalid
    response" and the in-memory one "empty response".  When the body has
    no [choices] at all the two differ: the primary deployment reads
    [choices[0]], which throws, and reports the connection text of its
    [catch]; the in-memory deployment reads [choices?.[0]] and reports the
    empty response as before. *)
Theorem X13_answer_without_text :
  (forall (St : Type) (IS : Primary.IStorage St) (L : Primary.StorageLaws St)
          env_key fetch (st : St) sid content s status p,
     Primary.chatMessageSchema_parse content = Some s ->
     is_Some (Primary.getChatSession st sid) ->
     truthy_str env_key = true ->
     fetch (Primary.request_sent env_key st sid s) = FetchResponse status p ->
     response_ok status = true ->
     p = PayloadNoChoices \/
     (exists c, p = PayloadContent c /\ truthy_str c = false) ->
     let text :=
       match p with
       | PayloadNoChoices => Primary.connection_text
       | _ => Primary.invalid_response_text
       end in
     let o := Primary.postMessage env_key fetch st sid content in
     response o = mkResponse 200 (Primary.ChatBody text sid) /\
     Primary.stored_last (store o) sid text)
  /\
  (forall env_key e (c : gmap string (list Netlify.Message)) sid content
          status p,
     truthy content = true ->
     Netlify.unconfigured env_key = false ->
     Netlify.fetch e (Netlify.request_sent env_key e c sid content) =
       FetchResponse status p ->
     response_ok status = true ->
     p = PayloadNoChoices \/
     (exists c, p = PayloadContent c /\ truthy_str c = false) ->
     let o := Netlify.postMessage env_key e c sid content in
     response o =
       mkResponse 200 (Netlify.ChatBody Netlify.empty_response_text sid) /\
     Netlify.stored_last (store o) sid Netlify.empty_response_text)
  /\
  Primary.connection_text <> Primary.invalid_response_text.
Proof.
  split; [| split].
  - intros St IS L env_key fetch st sid content s status p
           Hp Hs Hk Hf Hok Hcase. simpl.
    rewrite (primary_post_answered env_key fetch st sid content s Hp Hs Hk).
    unfold Primary.replyText. rewrite Hf. simpl. rewrite Hok. simpl.
    destruct Hcase as [-> | (c & -> & Hc)]; [| rewrite Hc]; simpl;
      (split; [reflexivity | apply (primary_stored_last _ _ _ [])]).
  - intros env_key e c sid content status p Hc Hk Hf Hok Hcase. simpl.
    rewrite netlify_post_configured by assumption.
    rewrite Hf. simpl. rewrite Hok.
    destruct Hcase as [-> | (c' & -> & Hc')]; [| rewrite Hc']; simpl;
      (split; [reflexivity | apply netlify_stored_last]).
  - discriminate.
Qed.

Lemma X13_answer_without_text_witness :
  Primary.chatMessageSchema_parse (JStr "hi") = Some "hi" /\
  is_Some (Primary.getChatSession Sample.db "s2") /\
  truthy_str Sample.key = true /\
  response_ok 200 = true /\
  response (Primary.postMessage Sample.key
              (fun _ => FetchResponse 200 PayloadNoChoices)
              Sample.db "s2" (JStr "hi")) =
    mkResponse 200 (Primary.ChatBody Primary.connection_text "s2") /\
  response (Netlify.postMessage Sample.key
              (Sample.env (FetchResponse 200 PayloadNoChoices))
              Sample.conversations "s1" (JStr "hi")) =
    mkResponse 200 (Netlify.ChatBody Netlify.empty_response_text "s1").
Proof.
  assert (Hs : is_Some (Primary.getChatSession Sample.db "s2"))
    by (eexists; reflexivity).
  destruct X13_answer_without_text as (Hp & Hn & _).
  split; [reflexivity |]. split; [exact Hs |]. split; [reflexivity |].
  split; [reflexivity |]. split.
  - exact (proj1 (Hp Primary.Db Primary.db_storage db_laws Sample.key
                    (fun _ => FetchResponse 200 PayloadNoChoices)
                    Sample.db "s2" (JStr "hi") "hi" 200 PayloadNoChoices
                    eq_refl Hs eq_refl eq_refl eq_refl (or_introl eq_refl))).
  - exact (proj1 (Hn Sample.key
                    (Sample.env (FetchResponse 200 PayloadNoChoices))
                    Sample.conversations "s1" (JStr "hi") 200 PayloadNoChoices
                    eq_refl eq_refl eq_refl eq_refl (or_introl eq_refl))).
Defined.

(** X14. When the upstream call of a valid post is rejected by anything
    but the timeout, the answer is still 200 with a fixed assistant turn
    that is stored.  The primary deployment has one connection text for
    every such error.  The in-memory deployment looks at the error
    message: the connection text when it contains "fetch", and the
    unexpected-error text otherwise, also when the error has no message. *)
Theorem X14_rejected_call :
  (forall (St : Type) (IS : Primary.IStorage St) (L : Primary.StorageLaws St)
          env_key fetch (st : St) sid content s fetchError,
     Primary.chatMessageSchema_parse content = Some s ->
     is_Some (Primary.getChatSession st sid) ->
     truthy_str env_key = true ->
     fetch (Primary.request_sent env_key st sid s) = FetchRejected fetchError ->
     err_name fetchError <> "AbortError" ->
     let o := Primary.postMessage env_key fetch st sid content in
     response o =
       mkResponse 200 (Primary.ChatBody Primary.connection_text sid) /\
     Primary.stored_last (store o) sid Primary.connection_text)
  /\
  (forall env_key e (c : gmap string (list Netlify.Message)) sid content
          apiError,
     truthy content = true ->
     Netlify.unconfigured env_key = false ->
     Netlify.fetch e (Netlify.request_sent env_key e c sid content) =
       FetchRejected apiError ->
     err_name apiError <> "AbortError" ->
     let text :=
       match err_message apiError with
       | Some message =>
           if includes "fetch" message then Netlify.connection_text
           else Netlify.unexpected_text
       | None => Netlify.unexpected_text
       end in
     let o := Netlify.postMessage env_key e c sid content in
     response o = mkResponse 200 (Netlify.ChatBody text sid) /\
     Netlify.stored_last (store o) sid text).
Proof.
  split.
  - intros St IS L env_key fetch st sid content s fetchError
           Hp Hs Hk Hf Hn. simpl.
    rewrite (primary_post_answered env_key fetch st sid content s Hp Hs Hk).
    unfold Primary.replyText. rewrite Hf. simpl.
    unfold Primary.fetchErrorText.
    apply String.eqb_neq in Hn. rewrite Hn.
    split; [reflexivity | apply (primary_stored_last _ _ _ [])].
  - intros env_key e c sid content apiError Hc Hk Hf Hn. simpl.
    rewrite netlify_post_configured by assumption.
    rewrite Hf. simpl. unfold Netlify.apiErrorText.
    apply String.eqb_neq in Hn. rewrite Hn.
    destruct (err_message apiError) as [message |]; simpl;
      [destruct (includes "fetch" message) |];
      (split; [reflexivity | apply netlify_stored_last]).
Qed.

Lemma X14_rejected_call_witness :
  truthy (JStr "hi") = true /\
  Netlify.unconfigured Sample.key = false /\
  "TypeError" <> "AbortError" /\
  response (Netlify.postMessage Sample.key
              (Sample.env (FetchRejected
                             (JsError "TypeError" (Some "Failed to fetch"))))
              Sample.conversations "s1" (JStr "hi")) =
    mkResponse 200 (Netlify.ChatBody Netlify.connection_text "s1") /\
  response (Netlify.postMessage Sample.key
              (Sample.env (FetchRejected
                             (JsError "TypeError" (Some "socket hang up"))))
              Sample.conversations "s1" (JStr "hi")) =
    mkResponse 200 (Netlify.ChatBody Netlify.unexpected_text "s1").
Proof.
  assert (Hne : "TypeError" <> "AbortError") by discriminate.
  split; [reflexivity |]. split; [reflexivity |]. split; [exact Hne |].
  split.
  - exact (proj1 (proj2 X14_rejected_call Sample.key
                    (Sample.env (FetchRejected
                                   (JsError "TypeError"
                                      (Some "Failed to fetch"))))
                    Sample.conversations "s1" (JStr "hi")
                    (JsError "TypeError" (Some "Failed to fetch"))
                    eq_refl eq_refl eq_refl Hne)).
  - exact (proj1 (proj2 X14_rejected_call Sample.key
                    (Sample.env (FetchRejected
                                   (JsError "TypeError"
                                      (Some "socket hang up"))))
                    Sample.conversations "s1" (JStr "hi")
                    (JsError "TypeError" (Some "socket hang up"))
                    eq_refl eq_refl eq_refl Hne)).
Defined.

(** X15. A session is never created without a title: both deployments
    take the title of the body when it is truthy and "New Chat" otherwise
    (missing, null, empty string, 0, false), and the owner is always the
    default user.  The primary route hands exactly that to the storage,
    after ensuring the default user, and answers 200 with the row the
    storage returns. *)
Theorem X15_session_title :
  (forall title : jsval,
     let d := PrimaryAccount.sessionData title in
     truthy (PrimaryAccount.ics_title d) = true /\
     PrimaryAccount.ics_title d =
       (if truthy title then title else JStr "New Chat") /\
     PrimaryAccount.ics_userId d = "default-user")
  /\
  (forall (St : Type) (IA : PrimaryAccount.IAccountStorage St) (st : St) title,
     let st' := (PrimaryAccount.ensureDefaultUser st).2 in
     let created :=
       PrimaryAccount.createChatSession st' (PrimaryAccount.sessionData title) in
     PrimaryAccount.createSession st title =
     mkOutcome (mkResponse 200 (PrimaryAccount.SessionBody created.1))
               created.2 [])
  /\
  (forall e (c : gmap string (list Netlify.Message)) title,
     exists s : Netlify.Session,
       response (Netlify.createSession e c title) =
         mkResponse 200 (Netlify.SessionBody s) /\
       truthy (Netlify.ses_title s) = true /\
       Netlify.ses_title s =
         (if truthy title then title else JStr "New Chat") /\
       Netlify.ses_userId s = "default-user").
Proof.
  assert (Hor : forall title, truthy (js_or title (JStr "New Chat")) = true).
  { intros title. unfold js_or. destruct (truthy title) eqn:Ht;
      [exact Ht | reflexivity]. }
  split; [| split].
  - intros title. simpl. split; [apply Hor |]. split; reflexivity.
  - intros St IA st title. simpl. unfold PrimaryAccount.createSession.
    destruct (PrimaryAccount.ensureDefaultUser st) as [user st1]. simpl.
    destruct (PrimaryAccount.createChatSession st1 _) as [session st2].
    reflexivity.
  - intros e c title. eexists. split; [reflexivity |]. simpl.
    split; [apply Hor |]. split; reflexivity.
Qed.

(** X16. The user and session routes of the primary deployment write the
    default user only when the storage does not have it.  When it is
    there, fetching the user and listing the sessions leave the store as
    it is, and the listing is what the storage holds for the default user;
    when it is missing, each of them first upserts the default user with
    the fixed fields, so that a read request writes. *)
Theorem X16_primary_default_user :
  forall (St : Type) (IA : PrimaryAccount.IAccountStorage St) (st : St),
    (forall user,
       PrimaryAccount.getUser st PrimaryAccount.DEFAULT_USER_ID = Some user ->
       PrimaryAccount.authUser st =
         mkOutcome (mkResponse 200 (PrimaryAccount.UserBody user)) st [] /\
       PrimaryAccount.listSessions st =
         mkOutcome
           (mkResponse 200
              (PrimaryAccount.SessionsBody
                 (PrimaryAccount.getAllChatSessions st
                    PrimaryAccount.DEFAULT_USER_ID)))
           st [])
    /\
    (PrimaryAccount.getUser st PrimaryAccount.DEFAULT_USER_ID = None ->
     let upserted := PrimaryAccount.upsertUser st PrimaryAccount.defaultUser in
     PrimaryAccount.authUser st =
       mkOutcome (mkResponse 200 (PrimaryAccount.UserBody upserted.1))
                 upserted.2 [] /\
     PrimaryAccount.listSessions st =
       mkOutcome
         (mkResponse 200
            (PrimaryAccount.SessionsBody
               (PrimaryAccount.getAllChatSessions upserted.2
                  PrimaryAccount.DEFAULT_USER_ID)))
         upserted.2 []).
Proof.
  intros St IA st. split.
  - intros user Hu.
    unfold PrimaryAccount.authUser, PrimaryAccount.listSessions,
      PrimaryAccount.ensureDefaultUser.
    rewrite Hu. split; reflexivity.
  - intros Hu. simpl.
    unfold PrimaryAccount.authUser, PrimaryAccount.listSessions,
      PrimaryAccount.ensureDefaultUser.
    rewrite Hu.
    destruct (PrimaryAccount.upsertUser st PrimaryAccount.defaultUser)
      as [user st1].
    split; reflexivity.
Qed.

Lemma X16_primary_default_user_witness :
  PrimaryAccount.getUser Sample2.fresh PrimaryAccount.DEFAULT_USER_ID = None /\
  store (PrimaryAccount.listSessions Sample2.fresh) <> Sample2.fresh /\
  PrimaryAccount.getUser (store (PrimaryAccount.listSessions Sample2.fresh))
    PrimaryAccount.DEFAULT_USER_ID =
  Some (PrimaryAccount.upsertUser Sample2.fresh PrimaryAccount.defaultUser).1 /\
  PrimaryAccount.authUser (store (PrimaryAccount.listSessions Sample2.fresh)) =
  mkOutcome
    (mkResponse 200
       (PrimaryAccount.UserBody
          (PrimaryAccount.upsertUser Sample2.fresh PrimaryAccount.defaultUser).1))
    (store (PrimaryAccount.listSessions Sample2.fresh)) [].
Proof.
  split; [reflexivity |]. split; [vm_compute; discriminate |].
  split; [reflexivity |].
  exact (proj1 (proj1 (X16_primary_default_user Sample2.AccountDb
                         Sample2.account_storage
                         (store (PrimaryAccount.listSessions Sample2.fresh)))
                  _ eq_refl)).
Defined.

Lemma client_sessionExists_spec (sessions : option (list Client.ChatSession))
    (stored : string) :
  Client.sessionExists sessions stored = true <->
  exists l s, sessions = Some l /\ In s l /\ Client.cs_id s = stored.
Proof.
  destruct sessions as [l |]; simpl.
  - rewrite existsb_exists. split.
    + intros (s & Hin & Heq). apply String.eqb_eq in Heq. eauto.
    + intros (l' & s & [= <-] & Hin & Heq). exists s.
      split; [exact Hin | apply String.eqb_eq, Heq].
  - split; [discriminate | intros (l & s & Hl & _); discriminate].
Qed.

(** X17. How the chat page chooses its session, when the creation of a
    session succeeds if it is needed.  A stored id that is not empty and
    that the backend lists is restored, whatever its place in the listing,
    and nothing is created.  Otherwise the first listed session is taken,
    and nothing is created.  Only when nothing is listed is a new session
    created and taken, and the listing fetched again.  In every case
    [localStorage] afterwards holds the current session id and the page is
    no longer initializing. *)
Theorem X17_client_initialize :
  forall (sessions : option (list Client.ChatSession))
         (newSession : Client.ChatSession) (st : Client.State),
    let r := Client.initializeSession sessions (Some newSession) st in
    let restorable :=
      exists stored l s,
        Client.localStorage st = Some stored /\ stored <> EmptyString /\
        sessions = Some l /\ In s l /\ Client.cs_id s = stored in
    Client.localStorage (Client.state r) =
      Some (Client.currentSessionId (Client.state r)) /\
    Client.isInitializing (Client.state r) = false /\
    (Client.created r = false /\
     (exists l s,
        sessions = Some l /\ In s l /\
        Client.cs_id s = Client.currentSessionId (Client.state r))
     \/
     Client.created r = true /\
     (sessions = None \/ sessions = Some []) /\
     Client.currentSessionId (Client.state r) = Client.cs_id newSession) /\
    (forall stored l s,
       Client.localStorage st = Some stored ->
       stored <> EmptyString ->
       sessions = Some l ->
       In s l ->
       Client.cs_id s = stored ->
       Client.currentSessionId (Client.state r) = stored /\
       Client.created r = false /\
       Client.refetched r = false) /\
    (forall latest l,
       ~ restorable ->
       sessions = Some (latest :: l) ->
       Client.currentSessionId (Client.state r) = Client.cs_id latest /\
       Client.created r = false /\
       Client.refetched r = false) /\
    (sessions = None \/ sessions = Some [] ->
     Client.currentSessionId (Client.state r) = Client.cs_id newSession /\
     Client.created r = true /\
     Client.refetched r = true).
Proof.
  intros sessions newSession st r restorable. subst r.
  assert (Hrest : restorable <->
            truthy_str (Client.localStorage st)
            && Client.sessionExists sessions
                 (default EmptyString (Client.localStorage st)) = true).
  { subst restorable. rewrite andb_true_iff. split.
    - intros (stored & l & s & Hst & Hne & Hl & Hin & Heq). rewrite Hst. simpl.
      split; [destruct stored; [contradiction | reflexivity] |].
      apply client_sessionExists_spec. eauto.
    - intros [Ht Hex].
      destruct (Client.localStorage st) as [stored |]; [| discriminate].
      simpl in Ht, Hex.
      apply client_sessionExists_spec in Hex as (l & s & Hl & Hin & Heq).
      exists stored, l, s.
      repeat split; try assumption.
      intros ->. discriminate. }
  unfold Client.initializeSession.
  destruct (truthy_str (Client.localStorage st)
            && Client.sessionExists sessions
                 (default EmptyString (Client.localStorage st))) eqn:Hb.
  - destruct (proj2 Hrest eq_refl)
      as (stored & l & s & Hst & Hne & Hl & Hin & Heq).
    rewrite Hst. simpl.
    split; [reflexivity |]. split; [reflexivity |].
    split; [left; split; [reflexivity |]; eauto |].
    split; [| split].
    + intros stored' l' s' [= <-] _ _ _ _. repeat split.
    + intros latest l' Hno. exfalso. apply Hno, Hrest. reflexivity.
    + intros [Hs | Hs]; rewrite Hs in Hl;
        [discriminate Hl | injection Hl as <-; destruct Hin].
  - assert (Hno : ~ restorable)
      by (intros Hyes; apply Hrest in Hyes; discriminate Hyes).
    assert (Hnot : forall stored l s,
              Client.localStorage st = Some stored ->
              stored <> EmptyString -> sessions = Some l -> In s l ->
              Client.cs_id s = stored -> False).
    { intros stored l s Hst Hne Hl Hin Heq. apply Hno.
      exists stored, l, s. auto. }
    destruct sessions as [[| latest l] |]; simpl.
    + split; [reflexivity |]. split; [reflexivity |].
      split; [right; auto |]. split; [| split].
      * intros stored l s Hst Hne Hl Hin Heq. exfalso. eauto.
      * intros latest l _ Hl. discriminate Hl.
      * intros _. repeat split.
    + split; [reflexivity |]. split; [reflexivity |].
      split; [left; split; [reflexivity |];
              exists (latest :: l), latest;
              split; [reflexivity |];
              split; [left; reflexivity | reflexivity] |].
      split; [| split].
      * intros stored l' s Hst Hne Hl Hin Heq. exfalso. eauto.
      * intros latest' l' _ [= <- <-]. repeat split.
      * intros [Hs | Hs]; discriminate Hs.
    + split; [reflexivity |]. split; [reflexivity |].
      split; [right; auto |]. split; [| split].
      * intros stored l s Hst Hne Hl Hin Heq. exfalso. eauto.
      * intros latest l _ Hl. discriminate Hl.
      * intros _. repeat split.
Qed.

Lemma X17_client_initialize_witness :
  Client.localStorage Sample2.returning = Some "s1" /\
  "s1" <> EmptyString /\
  In (Client.mkChatSession "s1" None "2025-10-02T09:00:00Z"
        "2025-10-02T09:00:00Z") Sample2.listed /\
  head Sample2.listed =
    Some (Client.mkChatSession "s2" (Some "New Chat") "2025-10-03T09:00:00Z"
            "2025-10-03T09:00:00Z") /\
  Client.currentSessionId
    (Client.state (Client.initializeSession (Some Sample2.listed)
                     (Some Sample2.new_session) Sample2.returning)) = "s1" /\
  Client.created (Client.initializeSession (Some Sample2.listed)
                    (Some Sample2.new_session) Sample2.returning) = false /\
  Client.currentSessionId
    (Client.state (Client.initializeSession (Some [])
                     (Some Sample2.new_session) Sample2.returning)) = "s3" /\
  Client.created (Client.initializeSession (Some [])
                    (Some Sample2.new_session) Sample2.returning) = true.
Proof.
  assert (Hne : "s1" <> EmptyString) by discriminate.
  assert (Hin : In (Client.mkChatSession "s1" None "2025-10-02T09:00:00Z"
                      "2025-10-02T09:00:00Z") Sample2.listed)
    by (right; left; reflexivity).
  split; [reflexivity |]. split; [exact Hne |]. split; [exact Hin |].
  split; [reflexivity |].
  destruct (X17_client_initialize (Some Sample2.listed) Sample2.new_session
              Sample2.returning) as (_ & _ & _ & Hrestore & _ & _).
  destruct (Hrestore "s1" Sample2.listed _ eq_refl Hne eq_refl Hin eq_refl)
    as (Hcur & Hcr & _).
  split; [exact Hcur |]. split; [exact Hcr |].
  destruct (X17_client_initialize (Some []) Sample2.new_session
              Sample2.returning) as (_ & _ & _ & _ & _ & Hcreate).
  destruct (Hcreate (or_intror eq_refl)) as (Hcur' & Hcr' & _).
  split; [exact Hcur' | exact Hcr'].
Defined.

(** X18. The chat page never keeps a stored session id that the backend
    does not list: the id is removed from [localStorage], which afterwards
    holds the first listed session, or the newly created one when nothing
    is listed, or nothing when that creation fails.  When the listing is
    empty the page asks for a new session whatever id was stored. *)
Theorem X18_client_stale_session :
  forall (sessions : option (list Client.ChatSession))
         (newSession : option Client.ChatSession) (st : Client.State)
         (stored : string),
    Client.localStorage st = Some stored ->
    stored <> EmptyString ->
    Client.sessionExists sessions stored = false ->
    let r := Client.initializeSession sessions newSession st in
    Client.localStorage (Client.state r) =
      match sessions with
      | Some (latest :: _) => Some (Client.cs_id latest)
      | _ => Client.cs_id <$> newSession
      end /\
    (sessions = Some [] -> Client.created r = true).
Proof.
  intros sessions newSession st stored Hst Hne Hex r. subst r.
  unfold Client.initializeSession. rewrite Hst. simpl. rewrite Hex.
  rewrite andb_false_r.
  destruct stored as [| a stored]; [contradiction |]. simpl.
  destruct sessions as [[| latest l] |]; simpl;
    destruct newSession as [n |]; simpl; split; try reflexivity;
    intros; discriminate.
Qed.

Lemma X18_client_stale_session_witness :
  Client.localStorage Sample2.stale = Some "gone" /\
  "gone" <> EmptyString /\
  Client.sessionExists (Some []) "gone" = false /\
  Client.localStorage
    (Client.state (Client.initializeSession (Some [])
                     (Some Sample2.new_session) Sample2.stale)) = Some "s3" /\
  Client.created (Client.initializeSession (Some [])
                    (Some Sample2.new_session) Sample2.stale) = true.
Proof.
  assert (Hne : "gone" <> EmptyString) by discriminate.
  split; [reflexivity |]. split; [exact Hne |]. split; [reflexivity |].
  destruct (X18_client_stale_session (Some []) (Some Sample2.new_session)
              Sample2.stale "gone" eq_refl Hne eq_refl) as [Hl Hc].
  split; [exact Hl | exact (Hc eq_refl)].
Defined.


